(** * bookmd: the note store, the image store and the request handlers

    A shallow embedding of [funcs/sql.go], of the transcription client
    ([funcs.ConvertImageToMarkdown]) and of the three API handlers of
    [main.go], followed by the properties of the note life cycle.

    Conventions.
    - Go's [int] and [int64] are [Z]; the only place where the 64-bit range
      matters is [strconv.Atoi], which rejects what does not fit.
    - Go's [(T, error)] is [result T]; [fmt.Errorf] with [%w] keeps its cause.
    - The [notes] table is a finite map from the primary key [id] to the
      other three columns, together with the AUTOINCREMENT counter.
    - The file system is a finite map from cleaned paths to the bytes of
      the regular files; the directories are those on the way to a file,
      the working directory and [./images], which [main] creates.
    - What the process cannot decide by itself (the two clocks, a failing
      [os.Create] or [io.Copy], a refused [os.Stat], the answer of the
      chat-completion endpoint) is an explicit input.
    - A request is given by what [net/http] parses out of it: the form
      values, the uploaded files, and the two errors the parse can end in.
      Which of them a handler sees depends on the calls it has made
      before.
    - The table lives in memory: a statement fails only where SQLite itself
      refuses it (no rowid left), never for a fault of the driver.  The
      error branches of the Go code are all kept.
    - Logging ([log.Printf], [print]) and [defer ... Close()] are left out. *)

From Stdlib Require Import ZArith String Ascii List Lia.
From stdpp Require Import base option list gmap strings pretty sorting.

Local Open Scope Z_scope.

(** ** Errors and results *)

Inductive error : Type :=
| ErrNoRows                                  (* sql.ErrNoRows *)
| ErrNotExist                                (* fs.ErrNotExist *)
| External (msg : string)                    (* raised outside this program *)
| Errorf (msg : string)                      (* fmt.Errorf without [%w] *)
| Wrapf (msg : string) (cause : error).      (* fmt.Errorf, [%w] last *)

Global Instance error_eq_dec : EqDecision error.
Proof. solve_decision. Defined.

(** [err.Error()] *)
Fixpoint Error (e : error) : string :=
  match e with
  | ErrNoRows => "sql: no rows in result set"
  | ErrNotExist => "file does not exist"
  | External msg => msg
  | Errorf msg => msg
  | Wrapf msg c => msg +:+ Error c
  end.

Inductive result (A : Type) : Type :=
| Ok (a : A)
| Err (e : error).
Arguments Ok {A} a.
Arguments Err {A} e.

(** ** The pieces of Go's standard library the handlers call *)

Definition maxInt64 : Z := 9223372036854775807.
Definition minInt64 : Z := -9223372036854775808.

(** [fmt.Sprintf("%d", n)] *)
Definition Itoa (n : Z) : string := pretty n.

Definition digit_of (c : ascii) : option Z :=
  let n := Z.of_N (N_of_ascii c) in
  if (48 <=? n) && (n <=? 57) then Some (n - 48) else None.

(** The digit loop of [strconv.Atoi]: [n = n*10 + int(ch)]. *)
Fixpoint atoi_digits (s : string) (n : Z) : option Z :=
  match s with
  | EmptyString => Some n
  | String ch s' =>
      match digit_of ch with
      | Some d => atoi_digits s' (n * 10 + d)
      | None => None
      end
  end.

(** [strconv.Atoi]: an optional sign, then at least one decimal digit, and
    a value that fits in 64 bits; [None] stands for its [*NumError]. *)
Definition Atoi (s : string) : option Z :=
  let '(neg, body) :=
    match s with
    | String "-" s' => (true, s')
    | String "+" s' => (false, s')
    | _ => (false, s)
    end in
  match body with
  | EmptyString => None
  | _ =>
      match atoi_digits body 0 with
      | Some n =>
          let v := if neg then - n else n in
          if (minInt64 <=? v) && (v <=? maxInt64) then Some v else None
      | None => None
      end
  end.

(** The loop of [filepath.Ext], which walks from the last byte towards the
    first: [rev_prefix] is [path[:i+1]] reversed and [suffix] is
    [path[i+1:]]. *)
Fixpoint ext_loop (rev_prefix : list ascii) (suffix : list ascii) : list ascii :=
  match rev_prefix with
  | [] => []
  | c :: rest =>
      if Ascii.eqb c "/" then []
      else if Ascii.eqb c "." then c :: suffix
      else ext_loop rest (c :: suffix)
  end.

Definition Ext (path : string) : string :=
  string_of_list_ascii (ext_loop (rev (list_ascii_of_string path)) []).

(** Splitting a path at its separators. *)
Fixpoint split_go (cur : string) (s : string) : list string :=
  match s with
  | EmptyString => [String.rev cur]
  | String c s' =>
      if Ascii.eqb c "/" then String.rev cur :: split_go "" s'
      else split_go (String c cur) s'
  end.
Definition split_path (s : string) : list string := split_go "" s.

(** [filepath.Clean] on the elements of a path; [out] is the cleaned prefix,
    last element first. *)
Fixpoint clean_elems (rooted : bool) (elems : list string) (out : list string)
  : list string :=
  match elems with
  | [] => rev out
  | e :: elems' =>
      if decide (e = "" ∨ e = ".") then clean_elems rooted elems' out
      else if decide (e = "..") then
        match out with
        | top :: out' =>
            if decide (top = "..") then clean_elems rooted elems' (e :: out)
            else clean_elems rooted elems' out'
        | [] =>
            if rooted then clean_elems rooted elems' out
            else clean_elems rooted elems' [e]
        end
      else clean_elems rooted elems' (e :: out)
  end.

Fixpoint join_with (sep : string) (l : list string) : string :=
  match l with
  | [] => ""
  | [x] => x
  | x :: l' => x +:+ sep +:+ join_with sep l'
  end.

Definition Clean (path : string) : string :=
  let rooted := match path with String "/" _ => true | _ => false end in
  let body := join_with "/" (clean_elems rooted (split_path path) []) in
  let res := if rooted then "/" +:+ body else body in
  if decide (res = "") then "." else res.

(** [filepath.Join] of two elements. *)
Definition Join (dir name : string) : string :=
  if decide (dir ≠ "") then Clean (dir +:+ "/" +:+ name)
  else if decide (name ≠ "") then Clean name
  else "".

(** [strings.ReplaceAll(s, old, new)] for a one-byte [old]. *)
Fixpoint ReplaceAll (s : string) (old : ascii) (new : string) : string :=
  match s with
  | EmptyString => EmptyString
  | String c s' =>
      if Ascii.eqb c old then new +:+ ReplaceAll s' old new
      else String c (ReplaceAll s' old new)
  end.

Definition newline : ascii := "010".
Definition backslash_n : string := String "\" "n".

(** ** The [notes] table (schema of [InitDB])

    [id INTEGER PRIMARY KEY AUTOINCREMENT, date_created DATETIME DEFAULT
    CURRENT_TIMESTAMP, image TEXT NOT NULL, markdown TEXT NOT NULL]. *)

Record Row : Type := mkRow {
  date_created : Z;
  image : string;
  markdown : string
}.

Record DB : Type := mkDB {
  notes : gmap Z Row;
  (* the largest rowid AUTOINCREMENT has handed out (table sqlite_sequence) *)
  sqlite_sequence : Z
}.

(** [type Note struct] *)
Record Note : Type := mkNote {
  ID : Z;
  DateCreated : Z;
  Image : string;
  Markdown : string
}.

Global Instance Row_eq_dec : EqDecision Row.
Proof. solve_decision. Defined.
Global Instance Note_eq_dec : EqDecision Note.
Proof. solve_decision. Defined.

(** [sql.Result]: both accessors return [(int64, error)]. *)
Record Result : Type := mkResult {
  lastInsertId : Z;
  rowsAffected : Z
}.
Definition LastInsertId (r : Result) : result Z := Ok (lastInsertId r).
Definition RowsAffected (r : Result) : result Z := Ok (rowsAffected r).

Definition max_rowid (t : gmap Z Row) : Z :=
  map_fold (λ k _ acc, Z.max k acc) 0 t.

(** [INSERT INTO notes (image, markdown) VALUES (?, ?)]: the rowid is one
    more than the largest ever used, and the statement fails once the
    largest 64-bit rowid has been used; [date_created] takes its default. *)
Definition exec_insert (db : DB) (current_timestamp : Z) (img md : string)
  : DB * result Result :=
  let last := Z.max (sqlite_sequence db) (max_rowid (notes db)) in
  if decide (last < maxInt64) then
    let id := last + 1 in
    (mkDB (<[id := mkRow current_timestamp img md]> (notes db)) id,
     Ok (mkResult id 1))
  else (db, Err (External "database or disk is full")).

(** [UPDATE notes SET image = ?, markdown = ? WHERE id = ?] *)
Definition set_image_markdown (img md : string) (r : Row) : Row :=
  mkRow (date_created r) img md.

Definition exec_update (db : DB) (img md : string) (id : Z)
  : DB * result Result :=
  match notes db !! id with
  | Some _ =>
      (mkDB (alter (set_image_markdown img md) id (notes db))
            (sqlite_sequence db),
       Ok (mkResult 0 1))
  | None => (db, Ok (mkResult 0 0))
  end.

(** [DELETE FROM notes WHERE id = ?] *)
Definition exec_delete (db : DB) (id : Z) : DB * result Result :=
  match notes db !! id with
  | Some _ =>
      (mkDB (delete id (notes db)) (sqlite_sequence db), Ok (mkResult 0 1))
  | None => (db, Ok (mkResult 0 0))
  end.

(** [SELECT id, date_created, image, markdown FROM notes WHERE id = ?]
    followed by [row.Scan]. *)
Definition note_of_row (r : Z * Row) : Note :=
  mkNote r.1 (date_created r.2) (image r.2) (markdown r.2).

Definition scan (r : Z * Row) : result Note := Ok (note_of_row r).

Definition query_row_scan (db : DB) (id : Z) : result Note :=
  match notes db !! id with
  | Some r => scan (id, r)
  | None => Err ErrNoRows
  end.

(** [... ORDER BY date_created DESC]: [newer a b] says that [a] may come
    before [b].  The query walks the index on [date_created] backwards, so
    rows of equal time come with the greater id first. *)
Definition newer (a b : Z * Row) : Prop :=
  date_created b.2 < date_created a.2 ∨
  (date_created b.2 = date_created a.2 ∧ b.1 ≤ a.1).

Global Instance newer_dec : RelDecision newer.
Proof. intros a b. unfold newer. apply _. Defined.

Definition query_all (db : DB) : result (list (Z * Row)) :=
  Ok (merge_sort newer (map_to_list (notes db))).

(** ** funcs/sql.go *)

Definition no_note_found (id : Z) : error :=
  Errorf ("no note found with id " +:+ Itoa id).

(** [AddNote]; [current_timestamp] is the clock of the database and [now]
    is [time.Now()]. *)
Definition AddNote (db : DB) (current_timestamp now : Z) (img md : string)
  : DB * result Note :=
  match exec_insert db current_timestamp img md with
  | (db', Err err) => (db', Err (Wrapf "failed to insert note: " err))
  | (db', Ok res) =>
      match LastInsertId res with
      | Err err => (db', Err (Wrapf "failed to get last insert id: " err))
      | Ok id => (db', Ok (mkNote id now img md))
      end
  end.

Definition GetNoteByID (db : DB) (id : Z) : result Note :=
  match query_row_scan db id with
  | Err err =>
      if decide (err = ErrNoRows) then Err (no_note_found id)
      else Err (Wrapf "failed to scan note: " err)
  | Ok note => Ok note
  end.

Definition UpdateNote (db : DB) (id : Z) (img md : string)
  : DB * result Note :=
  match exec_update db img md id with
  | (db', Err err) => (db', Err (Wrapf "failed to update note: " err))
  | (db', Ok res) =>
      match RowsAffected res with
      | Err err => (db', Err (Wrapf "failed to get rows affected: " err))
      | Ok n =>
          if decide (n = 0) then (db', Err (no_note_found id))
          else (db', GetNoteByID db' id)
      end
  end.

Definition DeleteNote (db : DB) (id : Z) : DB * option error :=
  match exec_delete db id with
  | (db', Err err) => (db', Some (Wrapf "failed to delete note: " err))
  | (db', Ok res) =>
      match RowsAffected res with
      | Err err => (db', Some (Wrapf "failed to get rows affected: " err))
      | Ok n =>
          if decide (n = 0) then (db', Some (no_note_found id))
          else (db', None)
      end
  end.

(** The [for rows.Next()] loop of [GetAllNotes]: scan, then append. *)
Fixpoint scan_rows (rows : list (Z * Row)) (acc : list Note)
  : result (list Note) :=
  match rows with
  | [] => Ok acc
  | r :: rows' =>
      match scan r with
      | Err err => Err (Wrapf "failed to scan note: " err)
      | Ok note => scan_rows rows' (acc ++ [note])
      end
  end.

Definition GetAllNotes (db : DB) : result (list Note) :=
  match query_all db with
  | Err err => Err (Wrapf "failed to query notes: " err)
  | Ok rows => scan_rows rows []
  end.

Definition empty_db : DB := mkDB ∅ 0.

(** A run of creates: each entry gives the two clock readings, the image
    name and the markdown of one [AddNote]. *)
Definition creates (ops : list (Z * Z * string * string)) (d : DB) : DB :=
  foldl (λ d '(ts, now, img, md), (AddNote d ts now img md).1) d ops.

(** Newest first. *)
Definition newest_first (l : list Note) : Prop :=
  StronglySorted (λ a b, DateCreated b ≤ DateCreated a) l.

(** ** The world the handlers run in *)

Record Client : Type := mkClient {
  APIKey : string;
  BaseURL : string
}.

(** [openai.ChatCompletionRequest], as [ConvertImageToMarkdown] fills it:
    one user message with a text part and an image part. *)
Record ChatCompletionRequest : Type := mkRequest {
  Model : string;
  Text : string;
  ImageURL : string
}.

Record ChatCompletionChoice : Type := mkChoice {
  Content : string           (* Message.Content *)
}.

Record ChatCompletionResponse : Type := mkResponse {
  Choices : list ChatCompletionChoice
}.

(** [http.DetectContentType] and [base64.StdEncoding.EncodeToString] are
    left to the platform. *)
Class Codec : Type := {
  DetectContentType : list Byte.byte → string;
  EncodeToString : list Byte.byte → string
}.

(** The inputs of one request that the process does not control. *)
Record Ambient : Type := {
  CURRENT_TIMESTAMP : Z;               (* clock of the database *)
  time_Now : Z;                        (* clock of the process *)
  create_err : option error;           (* does os.Create fail? *)
  copy_err : option (nat * error);     (* does io.Copy fail, after n bytes? *)
  stat_err : option string;            (* is os.Stat refused? *)
  OPENAI_API_KEY : string;             (* os.Getenv *)
  endpoint : Client → ChatCompletionRequest → result ChatCompletionResponse
}.

(** The inputs of a request during which [os.Stat] is not refused. *)
Definition mkAmbient (current_timestamp now : Z) (create : option error)
    (copy : option (nat * error)) (key : string)
    (ep : Client → ChatCompletionRequest → result ChatCompletionResponse)
  : Ambient :=
  {| CURRENT_TIMESTAMP := current_timestamp; time_Now := now;
     create_err := create; copy_err := copy; stat_err := None;
     OPENAI_API_KEY := key; endpoint := ep |}.

Record World : Type := mkWorld {
  db : DB;                               (* var db *sql.DB *)
  aiClient : option Client;              (* var aiClient *openai.Client *)
  files : gmap string (list Byte.byte);  (* regular files, by cleaned path *)
  sent : list ChatCompletionRequest      (* outbound calls, latest first *)
}.

Definition with_db (w : World) (d : DB) : World :=
  mkWorld d (aiClient w) (files w) (sent w).
Definition with_files (w : World) (f : gmap string (list Byte.byte)) : World :=
  mkWorld (db w) (aiClient w) f (sent w).

(** [openai.NewClient] *)
Definition NewClient (apiKey : string) : Client :=
  mkClient apiKey "https://api.openai.com/v1".

(** *** Files *)

(** [os.Create]: the file exists and is empty afterwards. *)
Definition os_Create (amb : Ambient) (path : string) (w : World)
  : World * result string :=
  match create_err amb with
  | Some err => (w, Err err)
  | None => (with_files w (<[path := []]> (files w)), Ok path)
  end.

(** [io.Copy(dst, file)] *)
Definition io_Copy (amb : Ambient) (dst : string) (src : list Byte.byte)
  (w : World) : World * result Z :=
  match copy_err amb with
  | Some (n, err) => (with_files w (<[dst := take n src]> (files w)), Err err)
  | None =>
      (with_files w (<[dst := src]> (files w)), Ok (Z.of_nat (length src)))
  end.

Definition os_ReadFile (path : string) (w : World) : result (list Byte.byte) :=
  match files w !! path with
  | Some data => Ok data
  | None => Err ErrNotExist
  end.

(** The directories on the way to a cleaned path: [a] and [a/b] for
    [a/b/c].  [cur] is what has been read, last byte first. *)
Fixpoint dir_prefixes (cur : string) (s : string) : list string :=
  match s with
  | EmptyString => []
  | String c s' =>
      if Ascii.eqb c "/" then String.rev cur :: dir_prefixes (String c cur) s'
      else dir_prefixes (String c cur) s'
  end.
Definition ancestors (path : string) : list string := dir_prefixes "" path.

(** The tree that goes with [files]: the working directory, the images
    directory that [main] creates, and every directory on the way to a
    file. *)
Definition is_dir (w : World) (path : string) : bool :=
  bool_decide (path = "." ∨ path = "images")
  || existsb (λ k, bool_decide (path ∈ ancestors k)) (map_to_list (files w)).*1.

(** Something on the way to [path] is a regular file. *)
Definition under_file (w : World) (path : string) : bool :=
  existsb (λ a, bool_decide (is_Some (files w !! a))) (ancestors path).

(** [_, err := os.Stat(path)].  The operating system may refuse the call
    whatever the tree holds: no permission to search a directory, an I/O
    error, a name longer than the file system takes.  Otherwise the tree
    decides: nil for a file and for a directory, ENOTDIR below a regular
    file, ENOENT where there is nothing. *)
Definition os_Stat (amb : Ambient) (path : string) (w : World)
  : option error :=
  match stat_err amb with
  | Some msg => Some (External msg)
  | None =>
      match files w !! path with
      | Some _ => None
      | None =>
          if is_dir w path then None
          else if under_file w path then Some (External "not a directory")
          else Some ErrNotExist
      end
  end.

Definition os_IsNotExist (err : option error) : bool :=
  match err with
  | Some ErrNotExist => true
  | _ => false
  end.

(** [client.CreateChatCompletion]: the request leaves the process. *)
Definition CreateChatCompletion (amb : Ambient) (client : Client)
  (req : ChatCompletionRequest) (w : World)
  : World * result ChatCompletionResponse :=
  (mkWorld (db w) (aiClient w) (files w) (req :: sent w),
   endpoint amb client req).

(** ** funcs.ConvertImageToMarkdown *)

Definition prompt : string :=
  "Transcribe this image of notes into clean Markdown. Use headers, bullet points, and code blocks to match the visual structure.".

Definition ConvertImageToMarkdown `{Codec} (amb : Ambient)
  (client : option Client) (imagePath : string) (w : World)
  : World * result string :=
  let client' :=
    match client with
    | Some c => Ok c
    | None =>
        let apiKey := OPENAI_API_KEY amb in
        if decide (apiKey = "")
        then Err (Errorf "OPENAI_API_KEY environment variable not set")
        else Ok (NewClient apiKey)
    end in
  match client' with
  | Err err => (w, Err err)
  | Ok c =>
      match os_ReadFile imagePath w with
      | Err err => (w, Err (Wrapf "failed to read image file: " err))
      | Ok imageData =>
          let mimeType := DetectContentType imageData in
          let base64Image := EncodeToString imageData in
          let dataURL := "data:" +:+ mimeType +:+ ";base64," +:+ base64Image in
          let req := mkRequest "gemini-3-flash-preview" prompt dataURL in
          match CreateChatCompletion amb c req w with
          | (w', Err err) => (w', Err (Wrapf "ai request failed: " err))
          | (w', Ok resp) =>
              match Choices resp with
              | [] => (w', Err (Errorf "no response choices returned"))
              | choice :: _ => (w', Ok (Content choice))
              end
          end
      end
  end.

(** The request [ConvertImageToMarkdown] sends for the bytes it read. *)
Definition request_for `{Codec} (imageData : list Byte.byte)
  : ChatCompletionRequest :=
  mkRequest "gemini-3-flash-preview" prompt
    ("data:" +:+ DetectContentType imageData +:+ ";base64,"
     +:+ EncodeToString imageData).

(** The client its call goes through: the one passed in, or one made from
    the environment. *)
Definition resolve (amb : Ambient) (client : option Client) : option Client :=
  match client with
  | Some c => Some c
  | None =>
      if decide (OPENAI_API_KEY amb = "") then None
      else Some (NewClient (OPENAI_API_KEY amb))
  end.

(** ** Requests and responses *)

Record FileHeader : Type := mkHeader {
  Filename : string;
  Size : Z
}.

Record Upload : Type := mkUpload {
  header : FileHeader;
  content : list Byte.byte
}.

(** An [*http.Request] as the handlers look at it.  net/http parses the
    form of a request once: the first of [r.FormValue],
    [r.ParseMultipartForm] and [r.ParseForm] does the work, and a later call
    finds [r.Form] (and [r.MultipartForm], if the body was read) in place.
    [Form] and [MultipartFiles] are what that parse leaves behind;
    [body_err] and [query_err] are what went wrong in it. *)
Record Request : Type := mkReq {
  Method : string;
  Form : gmap string string;            (* r.Form, first value of each key *)
  MultipartFiles : gmap string Upload;  (* r.MultipartForm.File *)
  body_err : option error;   (* the multipart body could not be read *)
  query_err : option error   (* the query, or a urlencoded body, is malformed *)
}.

(** [r.FormValue(key)]: parses the form if that has not been done, drops the
    error of the parse, and returns the first value of [key]. *)
Definition FormValue (r : Request) (key : string) : string :=
  default "" (Form r !! key).

(** [r.ParseMultipartForm(32 << 20)] as the first parse of the request, in
    [AddNoteHandler]: the error of the body if there is one, else the error
    of the query. *)
Definition multipart_err (r : Request) : option error :=
  match body_err r with
  | Some err => Some err
  | None => query_err r
  end.

(** [r.ParseMultipartForm(32 << 20)] after [r.FormValue], in
    [UpdateNoteHandler]: [r.Form] is set, so the query is not looked at
    again; the call returns nil if the body was read, and fails on the body
    once more if it was not. *)
Definition multipart_err_again (r : Request) : option error := body_err r.

(** [r.ParseForm()] after [r.FormValue], in [RegenerateNoteHandler]:
    [r.Form] and [r.PostForm] are set, nothing is parsed, the result is
    nil. *)
Definition form_err (r : Request) : option error := None.

Definition FormFile (r : Request) (key : string) : result Upload :=
  match MultipartFiles r !! key with
  | Some u => Ok u
  | None => Err (External "http: no such file")
  end.

Record Response : Type := mkResp {
  StatusCode : Z;
  ContentType : string;
  Body : string
}.

Definition StatusOK : Z := 200.
Definition StatusBadRequest : Z := 400.
Definition StatusNotFound : Z := 404.
Definition StatusMethodNotAllowed : Z := 405.
Definition StatusInternalServerError : Z := 500.
Definition MethodPost : string := "POST".

(** A handler threads the world and stops at its first [return]. *)
Inductive outcome (A : Type) : Type :=
| Next (a : A)
| Done (resp : Response).
Arguments Next {A} a.
Arguments Done {A} resp.

Definition handler (A : Type) : Type := World → World * outcome A.

Definition hbind {A B} (m : handler A) (k : A → handler B) : handler B :=
  λ w, match m w with
       | (w', Next a) => k a w'
       | (w', Done resp) => (w', Done resp)
       end.

Definition call {A} (f : World → World * A) : handler A :=
  λ w, let '(w', a) := f w in (w', Next a).

Definition peek {A} (f : World → A) : handler A :=
  λ w, (w, Next (f w)).

Notation "'do' x <- m 'in' k" := (hbind m (λ x, k))
  (at level 10, x name, m at level 200, k at level 200,
   format "'[v' 'do'  x  <-  m  'in' '/' k ']'").

(** [http.Error(w, msg, code); return] *)
Definition failure (msg : string) (code : Z) : Response :=
  mkResp code "text/plain; charset=utf-8" (msg +:+ String newline "").

Definition http_Error {A} (msg : string) (code : Z) : handler A :=
  λ w, (w, Done (failure msg code)).

Definition dq : string := String "034" "".
Definition quoted (s : string) : string := dq +:+ s +:+ dq.

(** [fmt.Fprintf(w, `{"success": true, "id": %d, "image": "%s",
    "markdown": "%s"}`, id, image, markdown)] *)
Definition success_format (id : Z) (img md : string) : string :=
  "{" +:+ quoted "success" +:+ ": true, " +:+ quoted "id" +:+ ": " +:+ Itoa id
  +:+ ", " +:+ quoted "image" +:+ ": " +:+ quoted img
  +:+ ", " +:+ quoted "markdown" +:+ ": " +:+ quoted md +:+ "}".

(** The last three statements of each handler. *)
Definition success (note : Note) : Response :=
  mkResp StatusOK "application/json"
    (success_format (ID note) (Image note)
       (ReplaceAll (Markdown note) newline backslash_n)).

Definition write_success {A} (note : Note) : handler A :=
  λ w, (w, Done (success note)).

Definition run (h : handler Response) (w : World) : World * Response :=
  match h w with
  | (w', Next resp) => (w', resp)
  | (w', Done resp) => (w', resp)
  end.

(** ** main.go: the three API handlers *)

(** The stored name of an upload: [fmt.Sprintf("%d%s", header.Size, ext)]. *)
Definition stored_filename (h : FileHeader) : string :=
  let ext := Ext (Filename h) in
  Itoa (Size h) +:+ ext.

(** Where an upload is written, and the world once it has been. *)
Definition image_path (u : Upload) : string :=
  Join "./images" (stored_filename (header u)).

Definition saved (w : World) (u : Upload) : World :=
  with_files w (<[image_path u := content u]> (files w)).

(** The request carries an image and writing it succeeds. *)
Definition reaches_disk (amb : Ambient) (r : Request) (u : Upload) : Prop :=
  Method r = MethodPost ∧ multipart_err r = None ∧
  MultipartFiles r !! "image" = Some u ∧
  create_err amb = None ∧ copy_err amb = None.

Definition AddNoteHandler `{Codec} (amb : Ambient) (r : Request)
  : World → World * Response :=
  run (
    if decide (Method r ≠ MethodPost)
    then http_Error "Method not allowed" StatusMethodNotAllowed else
    if multipart_err r is Some _
    then http_Error "Failed to parse form" StatusBadRequest else
    match FormFile r "image" with
    | Err _ => http_Error "No image file provided" StatusBadRequest
    | Ok upload =>
        let filename := stored_filename (header upload) in
        let imagePath := Join "./images" filename in
        do dst <- call (os_Create amb imagePath) in
        match dst with
        | Err _ => http_Error "Failed to save image" StatusInternalServerError
        | Ok dst =>
            do copied <- call (io_Copy amb dst (content upload)) in
            if copied is Err _
            then http_Error "Failed to save image" StatusInternalServerError
            else
            do client <- peek aiClient in
            do markdown <- call (ConvertImageToMarkdown amb client imagePath) in
            match markdown with
            | Err _ =>
                http_Error "Failed to convert image to markdown"
                  StatusInternalServerError
            | Ok markdown =>
                do note <- call (λ w,
                  let '(d, res) :=
                    AddNote (db w) (CURRENT_TIMESTAMP amb) (time_Now amb)
                      filename markdown in
                  (with_db w d, res)) in
                match note with
                | Err _ =>
                    http_Error "Failed to save to database"
                      StatusInternalServerError
                | Ok note => write_success note
                end
            end
        end
    end).

Definition UpdateNoteHandler `{Codec} (amb : Ambient) (r : Request)
  : World → World * Response :=
  run (
    if decide (Method r ≠ MethodPost)
    then http_Error "Method not allowed" StatusMethodNotAllowed else
    let idStr := FormValue r "id" in
    if decide (idStr = "")
    then http_Error "Note ID required" StatusBadRequest else
    match Atoi idStr with
    | None => http_Error "Invalid note ID" StatusBadRequest
    | Some id =>
    if multipart_err_again r is Some _
    then http_Error "Failed to parse form" StatusBadRequest else
    match FormFile r "image" with
    | Err _ => http_Error "No image file provided" StatusBadRequest
    | Ok upload =>
        let filename := stored_filename (header upload) in
        let imagePath := Join "./images" filename in
        do dst <- call (os_Create amb imagePath) in
        match dst with
        | Err _ => http_Error "Failed to save image" StatusInternalServerError
        | Ok dst =>
            do copied <- call (io_Copy amb dst (content upload)) in
            if copied is Err _
            then http_Error "Failed to save image" StatusInternalServerError
            else
            do client <- peek aiClient in
            do markdown <- call (ConvertImageToMarkdown amb client imagePath) in
            match markdown with
            | Err _ =>
                http_Error "Failed to convert image to markdown"
                  StatusInternalServerError
            | Ok markdown =>
                do note <- call (λ w,
                  let '(d, res) := UpdateNote (db w) id filename markdown in
                  (with_db w d, res)) in
                match note with
                | Err _ =>
                    http_Error "Failed to update database"
                      StatusInternalServerError
                | Ok note => write_success note
                end
            end
        end
    end
    end).

Definition RegenerateNoteHandler `{Codec} (amb : Ambient) (r : Request)
  : World → World * Response :=
  run (
    if decide (Method r ≠ MethodPost)
    then http_Error "Method not allowed" StatusMethodNotAllowed else
    let idStr := FormValue r "id" in
    if decide (idStr = "")
    then http_Error "Note ID required" StatusBadRequest else
    match Atoi idStr with
    | None => http_Error "Invalid note ID" StatusBadRequest
    | Some id =>
    if form_err r is Some _
    then http_Error "Failed to parse form" StatusBadRequest else
    do note <- peek (λ w, GetNoteByID (db w) id) in
    match note with
    | Err err =>
        http_Error ("Failed to retrieve note: " +:+ Error err) StatusNotFound
    | Ok note =>
        let imagePath := Join "./images" (Image note) in
        do st <- peek (os_Stat amb imagePath) in
        if os_IsNotExist st
        then http_Error "Image file not found" StatusNotFound else
        do client <- peek aiClient in
        do markdown <- call (ConvertImageToMarkdown amb client imagePath) in
        match markdown with
        | Err err =>
            http_Error ("Failed to convert image to markdown: " +:+ Error err)
              StatusInternalServerError
        | Ok markdown =>
            do updatedNote <- call (λ w,
              let '(d, res) := UpdateNote (db w) id (Image note) markdown in
              (with_db w d, res)) in
            match updatedNote with
            | Err err =>
                http_Error ("Failed to update database: " +:+ Error err)
                  StatusInternalServerError
            | Ok updatedNote => write_success updatedNote
            end
        end
    end
    end).

(** ** Vocabulary for the statements about unknown ids *)

(** The world with one more stored note. *)
Definition put_note (id : Z) (row : Row) (w : World) : World :=
  with_db w (mkDB (<[id := row]> (notes (db w))) (sqlite_sequence (db w))).

(** [unknown_id_status h code]: whenever a request carries a well-formed id
    that matches no stored note, and the request is otherwise fine (it is
    answered with 200 as soon as a note with that id is stored), handler [h]
    answers it with status [code]. *)
Definition unknown_id_status
    (h : Ambient → Request → World → World * Response) (code : Z) : Prop :=
  ∀ amb r w id,
    Atoi (FormValue r "id") = Some id →
    notes (db w) !! id = None →
    (∃ row, StatusCode (h amb r (put_note id row w)).2 = StatusOK) →
    StatusCode (h amb r w).2 = code.

(** [reports_stored_row out]: the body is the success format filled from a
    row that is in the table when the handler returns, its markdown changed
    by [strings.ReplaceAll] only. *)
Definition reports_stored_row (out : World * Response) : Prop :=
  ∃ id row,
    notes (db out.1) !! id = Some row ∧
    Body out.2 = success_format id (image row)
                   (ReplaceAll (markdown row) newline backslash_n).

(** ** Well-formed JSON texts (RFC 8259)

    A recogniser for the grammar of JSON, used to judge the bodies the
    handlers write.  [OutOfFuel] is kept apart from [Reject], so that a
    rejection is never an artefact of the bound on the recursion. *)

Inductive verdict : Type :=
| OutOfFuel
| Reject
| Accept (rest : string).

Definition is_ws (c : ascii) : bool :=
  Ascii.eqb c " " || Ascii.eqb c "009" || Ascii.eqb c "010" || Ascii.eqb c "013".

Fixpoint skip_ws (s : string) : string :=
  match s with
  | String c t => if is_ws c then skip_ws t else s
  | EmptyString => EmptyString
  end.

Definition is_digit (c : ascii) : bool :=
  let n := N_of_ascii c in (48 <=? n)%N && (n <=? 57)%N.

Definition is_hex (c : ascii) : bool :=
  let n := N_of_ascii c in
  is_digit c || ((65 <=? n)%N && (n <=? 70)%N) || ((97 <=? n)%N && (n <=? 102)%N).

Definition is_escape (c : ascii) : bool :=
  Ascii.eqb c "034" || Ascii.eqb c "\" || Ascii.eqb c "/" || Ascii.eqb c "b"
  || Ascii.eqb c "f" || Ascii.eqb c "n" || Ascii.eqb c "r" || Ascii.eqb c "t".

(** The characters of a string after its opening quote, up to and including
    the closing quote. *)
Fixpoint json_chars (s : string) : option string :=
  match s with
  | EmptyString => None
  | String c t =>
      if Ascii.eqb c "034" then Some t
      else if Ascii.eqb c "\" then
        match t with
        | String e t' =>
            if is_escape e then json_chars t'
            else if Ascii.eqb e "u" then
              match t' with
              | String h1 (String h2 (String h3 (String h4 t''))) =>
                  if is_hex h1 && is_hex h2 && is_hex h3 && is_hex h4
                  then json_chars t'' else None
              | _ => None
              end
            else None
        | EmptyString => None
        end
      else if (N_of_ascii c <? 32)%N then None
      else json_chars t
  end.

Fixpoint skip_digits (s : string) : string :=
  match s with
  | String c t => if is_digit c then skip_digits t else s
  | EmptyString => EmptyString
  end.

(** At least one digit, then as many as there are. *)
Definition json_digits (s : string) : option string :=
  match s with
  | String c t => if is_digit c then Some (skip_digits t) else None
  | EmptyString => None
  end.

Definition json_number (s : string) : option string :=
  let s1 := match s with String "-" t => t | _ => s end in
  let int_part :=
    match s1 with
    | String "0" t => Some t
    | _ => json_digits s1
    end in
  s2 ← int_part;
  s3 ← match s2 with
       | String "." t => json_digits t
       | _ => Some s2
       end;
  match s3 with
  | String e t =>
      if Ascii.eqb e "e" || Ascii.eqb e "E" then
        match t with
        | String sign t' =>
            if Ascii.eqb sign "+" || Ascii.eqb sign "-" then json_digits t'
            else json_digits t
        | EmptyString => None
        end
      else Some s3
  | EmptyString => Some s3
  end.

Definition literal (lit s : string) : option string :=
  if String.prefix lit s
  then Some (String.substring (String.length lit)
               (String.length s - String.length lit) s)
  else None.

Definition of_option (o : option string) : verdict :=
  match o with Some rest => Accept rest | None => Reject end.

Fixpoint json_value (fuel : nat) (s : string) : verdict :=
  match fuel with
  | O => OutOfFuel
  | S fuel' =>
      match skip_ws s with
      | String "{" t =>
          match skip_ws t with
          | String "}" t' => Accept t'
          | t' => json_members fuel' t'
          end
      | String "[" t =>
          match skip_ws t with
          | String "]" t' => Accept t'
          | t' => json_elements fuel' t'
          end
      | String "034" t => of_option (json_chars t)
      | String "t" _ => of_option (literal "true" (skip_ws s))
      | String "f" _ => of_option (literal "false" (skip_ws s))
      | String "n" _ => of_option (literal "null" (skip_ws s))
      | s' => of_option (json_number s')
      end
  end
with json_members (fuel : nat) (s : string) : verdict :=
  match fuel with
  | O => OutOfFuel
  | S fuel' =>
      match skip_ws s with
      | String "034" t =>
          match json_chars t with
          | None => Reject
          | Some t1 =>
              match skip_ws t1 with
              | String ":" t2 =>
                  match json_value fuel' t2 with
                  | Accept t3 =>
                      match skip_ws t3 with
                      | String "," t4 => json_members fuel' t4
                      | String "}" t4 => Accept t4
                      | _ => Reject
                      end
                  | v => v
                  end
              | _ => Reject
              end
          end
      | _ => Reject
      end
  end
with json_elements (fuel : nat) (s : string) : verdict :=
  match fuel with
  | O => OutOfFuel
  | S fuel' =>
      match json_value fuel' s with
      | Accept t1 =>
          match skip_ws t1 with
          | String "," t2 => json_elements fuel' t2
          | String "]" t2 => Accept t2
          | _ => Reject
          end
      | v => v
      end
  end.

(** [Some true]: a JSON text; [Some false]: not one. *)
Definition well_formed_json (s : string) : option bool :=
  match json_value (S (String.length s)) s with
  | OutOfFuel => None
  | Reject => Some false
  | Accept rest => Some (bool_decide (skip_ws rest = ""))
  end.

(** ** A small installation, for running the handlers *)

Definition test_codec : Codec :=
  {| DetectContentType := λ _, "image/png";
     EncodeToString := λ data, Itoa (Z.of_nat (length data)) |}.

Definition gemini : Client :=
  mkClient "secret" "https://generativelanguage.googleapis.com/v1beta/openai/".

(** An endpoint that answers every request with the given choices. *)
Definition answers (texts : list string)
  : Client → ChatCompletionRequest → result ChatCompletionResponse :=
  λ _ _, Ok (mkResponse (mkChoice <$> texts)).

Definition quiet (texts : list string) : Ambient :=
  mkAmbient 1700000000 1700000001 None None "" (answers texts).

Definition fresh : World := mkWorld empty_db (Some gemini) ∅ [].

Definition png (name : string) (data : list Byte.byte) : Upload :=
  mkUpload (mkHeader name (Z.of_nat (length data))) data.

Definition ten_bytes : list Byte.byte := replicate 10 Byte.x41.
Definition ten_other_bytes : list Byte.byte := replicate 10 Byte.x42.

Definition post (id : string) (img : option Upload) : Request :=
  mkReq MethodPost
    (if decide (id = "") then ∅ else {["id" := id]})
    (match img with Some u => {["image" := u]} | None => ∅ end)
    None None.

(** The world after [/api/add-note] has stored one note. *)
Definition one_note : World :=
  (AddNoteHandler (H := test_codec) (quiet ["# Title"])
     (post "" (Some (png "a.png" ten_bytes))) fresh).1.

(** ** Vocabulary for the statements about runs of the store *)

(** One call of a mutating function of [funcs/sql.go]. *)
Inductive store_op : Type :=
| op_add (current_timestamp now : Z) (img md : string)
| op_update (id : Z) (img md : string)
| op_delete (id : Z).

Definition apply_op (d : DB) (o : store_op) : DB :=
  match o with
  | op_add ts now img md => (AddNote d ts now img md).1
  | op_update id img md => (UpdateNote d id img md).1
  | op_delete id => (DeleteNote d id).1
  end.

Definition run_ops (ops : list store_op) (d : DB) : DB := foldl apply_op d ops.

(** Every id in the table is positive and not above the counter. *)
Definition ids_below_counter (d : DB) : Prop :=
  0 ≤ sqlite_sequence d ∧
  ∀ k, is_Some (notes d !! k) → 1 ≤ k ≤ sqlite_sequence d.

(** ** Vocabulary for the statements about transcription *)

Definition with_sent (w : World) (s : list ChatCompletionRequest) : World :=
  mkWorld (db w) (aiClient w) (files w) s.

Definition key_not_set : error :=
  Errorf "OPENAI_API_KEY environment variable not set".

(** ** Vocabulary for the statements about the images directory *)

(** [/api/update-note] gets as far as writing the image: its second parse
    of the form succeeds as soon as the body was read. *)
Definition update_reaches_disk (amb : Ambient) (r : Request) (u : Upload)
  : Prop :=
  Method r = MethodPost ∧ body_err r = None ∧
  MultipartFiles r !! "image" = Some u ∧
  create_err amb = None ∧ copy_err amb = None.

(** A file name, as the data model has it for the image of a note: not
    empty, no path, not a directory. *)
Definition plain_name (n : string) : Prop :=
  n ≠ "" ∧ n ≠ "." ∧ n ≠ ".." ∧
  ∀ c, c ∈ list_ascii_of_string n → c ≠ "/"%char.

(** The images directory is a directory and has no directory in it: no
    file lies below [images/<n>], whatever [n]. *)
Definition flat_store (w : World) : Prop :=
  files w !! "images" = None ∧
  ∀ k, is_Some (files w !! k) → ∀ n, "images/" +:+ n ∉ ancestors k.

(** Every note names its image by a plain name. *)
Definition plain_rows (d : DB) : Prop :=
  ∀ k row, notes d !! k = Some row → plain_name (image row).

(** ** Vocabulary for the statements about names *)

(** The bytes of a string. *)
Definition chars (s : string) : list ascii := list_ascii_of_string s.

Definition no_dot (s : string) : Prop := ∀ c, c ∈ chars s → c ≠ "."%char.

(** Empty, or starting with a dot. *)
Definition dotted (s : string) : Prop := s = "" ∨ ∃ t, s = String "." t.

(** ** Vocabulary for the statements about the order of the listing *)

(** The id and the creation time of a note. *)
Definition stamp (n : Note) : Z * Z := (ID n, DateCreated n).

Definition later (a b : Z * Z) : Prop := b.2 ≤ a.2.

(** * Properties *)

(** ** The library functions on small inputs *)

Example Atoi_7 : Atoi "7" = Some 7. Proof. reflexivity. Qed.
Example Atoi_neg : Atoi "-12" = Some (-12). Proof. reflexivity. Qed.
Example Atoi_sign_only : Atoi "+" = None. Proof. reflexivity. Qed.
Example Atoi_junk : Atoi "12a" = None. Proof. reflexivity. Qed.
Example Atoi_overflow : Atoi "9223372036854775808" = None.
Proof. reflexivity. Qed.
Example Ext_png : Ext "a.png" = ".png". Proof. reflexivity. Qed.
Example Ext_none : Ext "notes" = "". Proof. reflexivity. Qed.
Example Ext_last : Ext "a.tar.gz" = ".gz". Proof. reflexivity. Qed.
Example Ext_sep : Ext "a.b/c" = "". Proof. reflexivity. Qed.
Example Join_images : Join "./images" "10.png" = "images/10.png".
Proof. reflexivity. Qed.
Example Join_dotdot : Join "./images" "../x" = "x". Proof. reflexivity. Qed.
Example Itoa_10 : Itoa 10 = "10". Proof. reflexivity. Qed.

(** ** The note store *)

Section NoteStore.
Implicit Types (d : DB) (id : Z) (img md : string) (row : Row).

Lemma exec_update_absent d img md id :
  notes d !! id = None → exec_update d img md id = (d, Ok (mkResult 0 0)).
Proof. intros Hid. unfold exec_update. by rewrite Hid. Qed.

Lemma GetNoteByID_present d id row :
  notes d !! id = Some row →
  GetNoteByID d id = Ok (mkNote id (date_created row) (image row) (markdown row)).
Proof. intros Hid. unfold GetNoteByID, query_row_scan. by rewrite Hid. Qed.

Lemma GetNoteByID_absent d id :
  notes d !! id = None → GetNoteByID d id = Err (no_note_found id).
Proof. intros Hid. unfold GetNoteByID, query_row_scan. by rewrite Hid. Qed.

Lemma GetNoteByID_Ok d id note :
  GetNoteByID d id = Ok note →
  ∃ row, notes d !! id = Some row ∧
         note = mkNote id (date_created row) (image row) (markdown row).
Proof.
  unfold GetNoteByID, query_row_scan.
  destruct (notes d !! id) as [row|] eqn:Hid; simpl.
  - intros [= <-]. by exists row.
  - done.
Qed.

Lemma UpdateNote_absent d id img md :
  notes d !! id = None → UpdateNote d id img md = (d, Err (no_note_found id)).
Proof.
  intros Hid. unfold UpdateNote. by rewrite exec_update_absent.
Qed.

Lemma UpdateNote_present d id img md row :
  notes d !! id = Some row →
  UpdateNote d id img md =
    (mkDB (<[id := mkRow (date_created row) img md]> (notes d))
          (sqlite_sequence d),
     Ok (mkNote id (date_created row) img md)).
Proof.
  intros Hid. unfold UpdateNote, exec_update. rewrite Hid. simpl.
  assert (alter (set_image_markdown img md) id (notes d)
          = <[id := mkRow (date_created row) img md]> (notes d)) as ->.
  { apply map_eq. intros k. rewrite lookup_alter.
    destruct (decide (id = k)) as [<-|Hne].
    - by rewrite Hid, lookup_insert_eq.
    - by rewrite lookup_insert_ne. }
  rewrite (GetNoteByID_present _ _ (mkRow (date_created row) img md)); [done|].
  simpl. by rewrite lookup_insert_eq.
Qed.

(** Whatever its outcome, [UpdateNote] keeps every creation date. *)
Lemma UpdateNote_date_created d id img md k :
  date_created <$> notes (UpdateNote d id img md).1 !! k
  = date_created <$> notes d !! k.
Proof.
  destruct (notes d !! id) as [row|] eqn:Hid.
  - rewrite (UpdateNote_present _ _ _ _ row) by done. simpl.
    destruct (decide (id = k)) as [<-|Hne].
    + by rewrite lookup_insert_eq, Hid.
    + by rewrite lookup_insert_ne.
  - by rewrite UpdateNote_absent.
Qed.

Lemma UpdateNote_Ok d id img md d' note :
  UpdateNote d id img md = (d', Ok note) →
  ∃ row, notes d !! id = Some row ∧
         d' = mkDB (<[id := mkRow (date_created row) img md]> (notes d))
                   (sqlite_sequence d) ∧
         note = mkNote id (date_created row) img md.
Proof.
  destruct (notes d !! id) as [row|] eqn:Hid.
  - rewrite (UpdateNote_present _ _ _ _ row) by done.
    intros [= <- <-]. by exists row.
  - by rewrite UpdateNote_absent.
Qed.

Lemma UpdateNote_Err d id img md d' err :
  UpdateNote d id img md = (d', Err err) → d' = d.
Proof.
  destruct (notes d !! id) as [row|] eqn:Hid.
  - by rewrite (UpdateNote_present _ _ _ _ row).
  - rewrite UpdateNote_absent by done. by intros [= <-].
Qed.

Lemma AddNote_Ok d ts now img md d' note :
  AddNote d ts now img md = (d', Ok note) →
  notes d' !! ID note = Some (mkRow ts img md) ∧
  Image note = img ∧ Markdown note = md ∧ DateCreated note = now.
Proof.
  unfold AddNote, exec_insert, LastInsertId.
  case_decide; simpl; [|done].
  intros [= <- <-]. simpl. by rewrite lookup_insert_eq.
Qed.

Lemma AddNote_Err d ts now img md d' err :
  AddNote d ts now img md = (d', Err err) → d' = d.
Proof.
  unfold AddNote, exec_insert, LastInsertId.
  case_decide; simpl; [done|]. by intros [= <-].
Qed.

Lemma scan_rows_app rows acc :
  scan_rows rows acc = Ok (acc ++ (note_of_row <$> rows)).
Proof.
  revert acc. induction rows as [|r rows IH]; intros acc; simpl.
  - by rewrite app_nil_r.
  - rewrite IH. by rewrite <- app_assoc.
Qed.

Global Instance newer_total : Total newer.
Proof. intros a b. unfold newer. lia. Qed.

Global Instance newer_trans : Transitive newer.
Proof. intros a b c. unfold newer. lia. Qed.

Lemma newer_date (a b : Z * Row) :
  newer a b → date_created b.2 ≤ date_created a.2.
Proof. unfold newer. lia. Qed.

Lemma GetAllNotes_eq d :
  GetAllNotes d = Ok (note_of_row <$> merge_sort newer (map_to_list (notes d))).
Proof. unfold GetAllNotes, query_all. by rewrite scan_rows_app. Qed.

Lemma GetAllNotes_newest_first d :
  ∃ l, GetAllNotes d = Ok l ∧ newest_first l ∧
       l ≡ₚ note_of_row <$> map_to_list (notes d).
Proof.
  eexists. split; [apply GetAllNotes_eq|]. split.
  - unfold newest_first.
    apply (StronglySorted_fmap note_of_row newer); [apply newer_date|].
    apply StronglySorted_merge_sort; apply _.
  - by rewrite merge_sort_Permutation.
Qed.
End NoteStore.

(** ** The transcription client *)

Section Transcription.
Context `{Codec}.
Implicit Types (amb : Ambient) (w : World) (client : option Client).

(** Transcription touches neither table nor files: it only adds to the
    outbound calls. *)
Lemma Convert_frame amb client path w :
  let w' := (ConvertImageToMarkdown amb client path w).1 in
  db w' = db w ∧ files w' = files w ∧ aiClient w' = aiClient w.
Proof.
  unfold ConvertImageToMarkdown, CreateChatCompletion.
  repeat case_match; simplify_eq/=; done.
Qed.

Lemma Convert_frame_eq amb client path w w' res :
  ConvertImageToMarkdown amb client path w = (w', res) →
  db w' = db w ∧ files w' = files w ∧ aiClient w' = aiClient w.
Proof.
  intros Heq. pose proof (Convert_frame amb client path w) as Hfr.
  by rewrite Heq in Hfr.
Qed.

(** Every success is the content of the first choice of an answer. *)
Lemma Convert_Ok amb client path w w' text :
  ConvertImageToMarkdown amb client path w = (w', Ok text) →
  ∃ c data choice rest,
    resolve amb client = Some c ∧ files w !! path = Some data ∧
    endpoint amb c (request_for data) = Ok (mkResponse (choice :: rest)) ∧
    text = Content choice.
Proof.
  unfold ConvertImageToMarkdown, CreateChatCompletion, os_ReadFile, resolve.
  intros Heq. repeat case_match; simplify_eq/=.
  all: match goal with
       | Hc : Choices ?resp = ?ch :: ?rest |- _ =>
           destruct resp as [chs]; simpl in Hc; subst chs
       end.
  all: eauto 10.
Qed.

Lemma Convert_no_choices amb client path w c data :
  resolve amb client = Some c → files w !! path = Some data →
  endpoint amb c (request_for data) = Ok (mkResponse []) →
  (ConvertImageToMarkdown amb client path w).2
  = Err (Errorf "no response choices returned").
Proof.
  unfold ConvertImageToMarkdown, CreateChatCompletion, os_ReadFile, resolve.
  intros Hc Hf He. rewrite Hf.
  destruct client as [c'|]; simplify_eq/=.
  - fold (request_for data). by rewrite He.
  - case_decide; simplify_eq/=. fold (request_for data). by rewrite He.
Qed.

(** The "no choices" error is returned for no other reason. *)
Lemma Convert_no_choices_inv amb client path w :
  (ConvertImageToMarkdown amb client path w).2
  = Err (Errorf "no response choices returned") →
  ∃ c data, resolve amb client = Some c ∧ files w !! path = Some data ∧
            endpoint amb c (request_for data) = Ok (mkResponse []).
Proof.
  unfold ConvertImageToMarkdown, CreateChatCompletion, os_ReadFile, resolve.
  intros Heq. repeat case_match; simplify_eq/=.
  all: match goal with
       | Hc : Choices ?resp = [] |- _ =>
           destruct resp as [chs]; simpl in Hc; subst chs
       end.
  all: eauto 10.
Qed.

(** An endpoint that never returns a choice makes every transcription
    fail. *)
Lemma Convert_never_a_choice amb client path w :
  (∀ c q, endpoint amb c q = Ok (mkResponse [])) →
  ∃ err, (ConvertImageToMarkdown amb client path w).2 = Err err.
Proof.
  intros Hnone.
  destruct (ConvertImageToMarkdown amb client path w) as [w' [text|err]] eqn:Heq.
  - apply Convert_Ok in Heq as (c & data & choice & rest & _ & _ & He & _).
    by rewrite Hnone in He.
  - by exists err.
Qed.

(** Transcription does not look at the table. *)
Lemma Convert_with_db amb client path w d :
  ConvertImageToMarkdown amb client path (with_db w d)
  = let '(w', res) := ConvertImageToMarkdown amb client path w in
    (with_db w' d, res).
Proof.
  unfold ConvertImageToMarkdown, CreateChatCompletion, os_ReadFile.
  simpl. repeat case_match; simplify_eq/=; done.
Qed.
End Transcription.

(** ** The handlers, stage by stage *)

(** A request whose first parse succeeds has had its body read. *)
Lemma reaches_disk_update (amb : Ambient) (r : Request) (u : Upload) :
  reaches_disk amb r u → update_reaches_disk amb r u.
Proof.
  intros (Hm & Hp & Hf & Hc & Hcp). unfold multipart_err in Hp.
  repeat split; try done. by destruct (body_err r).
Qed.
Global Hint Immediate reaches_disk_update : core.

Section Handlers.
Context `{Codec}.
Implicit Types (amb : Ambient) (r : Request) (w : World) (u : Upload).

Lemma saved_twice w u :
  with_files (with_files w (<[image_path u := []]> (files w)))
    (<[image_path u := content u]> (<[image_path u := []]> (files w)))
  = saved w u.
Proof. unfold saved, with_files. simpl. by rewrite insert_insert_eq. Qed.

(** [/api/add-note] once the upload is on disk. *)
Lemma AddNoteHandler_saved amb r w u :
  reaches_disk amb r u →
  AddNoteHandler amb r w =
    match ConvertImageToMarkdown amb (aiClient w) (image_path u) (saved w u) with
    | (w2, Err _) =>
        (w2, failure "Failed to convert image to markdown"
               StatusInternalServerError)
    | (w2, Ok text) =>
        match AddNote (db w2) (CURRENT_TIMESTAMP amb) (time_Now amb)
                (stored_filename (header u)) text with
        | (d, Err _) =>
            (with_db w2 d,
             failure "Failed to save to database" StatusInternalServerError)
        | (d, Ok note) => (with_db w2 d, success note)
        end
    end.
Proof.
  intros (Hm & Hp & Hf & Hc & Hcp).
  unfold AddNoteHandler, run, hbind, call, peek, FormFile, os_Create, io_Copy.
  rewrite Hm, Hp, Hf, Hc, Hcp. simpl.
  fold (image_path u). rewrite saved_twice.
  destruct (ConvertImageToMarkdown _ _ _ _) as [w2 [text|err]]; [|done].
  by destruct (AddNote _ _ _ _ _) as [d [note|err]].
Qed.

(** [/api/update-note] once the upload is on disk. *)
Lemma UpdateNoteHandler_saved amb r w u id :
  update_reaches_disk amb r u → Atoi (FormValue r "id") = Some id →
  UpdateNoteHandler amb r w =
    match ConvertImageToMarkdown amb (aiClient w) (image_path u) (saved w u) with
    | (w2, Err _) =>
        (w2, failure "Failed to convert image to markdown"
               StatusInternalServerError)
    | (w2, Ok text) =>
        match UpdateNote (db w2) id (stored_filename (header u)) text with
        | (d, Err _) =>
            (with_db w2 d,
             failure "Failed to update database" StatusInternalServerError)
        | (d, Ok note) => (with_db w2 d, success note)
        end
    end.
Proof.
  intros (Hm & Hp & Hf & Hc & Hcp) Hid.
  unfold UpdateNoteHandler, run, hbind, call, peek, FormFile, os_Create, io_Copy,
    multipart_err_again.
  rewrite Hm, Hid, Hp, Hf, Hc, Hcp. simpl.
  rewrite decide_False by (intros Heq; by rewrite Heq in Hid).
  fold (image_path u). rewrite saved_twice.
  destruct (ConvertImageToMarkdown _ _ _ _) as [w2 [text|err]]; [|done].
  by destruct (UpdateNote _ _ _ _) as [d [note|err]].
Qed.

(** [/api/regenerate-note] once the id has been read from the form. *)
Lemma RegenerateNoteHandler_parsed amb r w id :
  Method r = MethodPost → Atoi (FormValue r "id") = Some id →
  form_err r = None →
  RegenerateNoteHandler amb r w =
    match GetNoteByID (db w) id with
    | Err err =>
        (w, failure ("Failed to retrieve note: " +:+ Error err) StatusNotFound)
    | Ok note =>
        let imagePath := Join "./images" (Image note) in
        if os_IsNotExist (os_Stat amb imagePath w)
        then (w, failure "Image file not found" StatusNotFound)
        else
          match ConvertImageToMarkdown amb (aiClient w) imagePath w with
          | (w2, Err err) =>
              (w2, failure ("Failed to convert image to markdown: "
                            +:+ Error err) StatusInternalServerError)
          | (w2, Ok text) =>
              match UpdateNote (db w2) id (Image note) text with
              | (d, Err err) =>
                  (with_db w2 d,
                   failure ("Failed to update database: " +:+ Error err)
                     StatusInternalServerError)
              | (d, Ok updatedNote) => (with_db w2 d, success updatedNote)
              end
          end
    end.
Proof.
  intros Hm Hid Hp.
  unfold RegenerateNoteHandler, run, hbind, call, peek.
  rewrite Hm, Hid, Hp. simpl.
  rewrite decide_False by (intros Heq; by rewrite Heq in Hid).
  destruct (GetNoteByID _ _) as [note|err]; [|done]. simpl.
  destruct (os_IsNotExist _); [done|].
  destruct (ConvertImageToMarkdown _ _ _ _) as [w2 [text|err]]; [|done].
  by destruct (UpdateNote _ _ _ _) as [d [updatedNote|err]].
Qed.
(** Before that point a handler answers with an error and leaves the
    table alone.  [answered_early] runs a handler up to such a [return],
    using the facts collected so far about the request. *)
Ltac answered_early :=
  right;
  unfold AddNoteHandler, UpdateNoteHandler, RegenerateNoteHandler,
    run, FormFile, hbind, call, os_Create, io_Copy, multipart_err_again;
  repeat first
    [ rewrite decide_True by done
    | rewrite decide_False by (done || by intros []) ];
  repeat match goal with
         | Heq : ?lhs = _ |- context [?lhs] => rewrite Heq
         end;
  done.

Lemma AddNoteHandler_early amb r w :
  (∃ u, reaches_disk amb r u) ∨
  (db (AddNoteHandler amb r w).1 = db w ∧
   sent (AddNoteHandler amb r w).1 = sent w ∧
   StatusCode (AddNoteHandler amb r w).2 ≠ StatusOK).
Proof.
  unfold reaches_disk.
  destruct (decide (Method r = MethodPost)) as [Hm|Hm]; [|answered_early].
  destruct (multipart_err r) as [e|] eqn:Hp; [answered_early|].
  destruct (MultipartFiles r !! "image") as [u|] eqn:Hf; [|answered_early].
  destruct (create_err amb) as [e|] eqn:Hc; [answered_early|].
  destruct (copy_err amb) as [[n e]|] eqn:Hcp; [answered_early|].
  left. by exists u.
Qed.

Lemma UpdateNoteHandler_early amb r w :
  (∃ u id, update_reaches_disk amb r u ∧ Atoi (FormValue r "id") = Some id) ∨
  (db (UpdateNoteHandler amb r w).1 = db w ∧
   sent (UpdateNoteHandler amb r w).1 = sent w ∧
   StatusCode (UpdateNoteHandler amb r w).2 ≠ StatusOK).
Proof.
  unfold update_reaches_disk.
  destruct (decide (Method r = MethodPost)) as [Hm|Hm]; [|answered_early].
  destruct (decide (FormValue r "id" = "")) as [He|He]; [answered_early|].
  destruct (Atoi (FormValue r "id")) as [id|] eqn:Hid; [|answered_early].
  destruct (body_err r) as [e|] eqn:Hp; [answered_early|].
  destruct (MultipartFiles r !! "image") as [u|] eqn:Hf; [|answered_early].
  destruct (create_err amb) as [e|] eqn:Hc; [answered_early|].
  destruct (copy_err amb) as [[n e]|] eqn:Hcp; [answered_early|].
  left. by exists u, id.
Qed.

Lemma RegenerateNoteHandler_early amb r w :
  (∃ id, Method r = MethodPost ∧ Atoi (FormValue r "id") = Some id ∧
         form_err r = None) ∨
  ((RegenerateNoteHandler amb r w).1 = w ∧
   StatusCode (RegenerateNoteHandler amb r w).2 ≠ StatusOK).
Proof.
  destruct (decide (Method r = MethodPost)) as [Hm|Hm]; [|answered_early].
  destruct (decide (FormValue r "id" = "")) as [He|He]; [answered_early|].
  destruct (Atoi (FormValue r "id")) as [id|] eqn:Hid; [|answered_early].
  destruct (form_err r) as [e|] eqn:Hp; [answered_early|].
  left. by exists id.
Qed.

(** Neither handler that rewrites a note touches a creation date. *)
Lemma UpdateNoteHandler_dates amb r w k :
  date_created <$> notes (db (UpdateNoteHandler amb r w).1) !! k
  = date_created <$> notes (db w) !! k.
Proof.
  destruct (UpdateNoteHandler_early amb r w) as [(u & id & Hu & Hid)|(-> & _)];
    [|done].
  rewrite (UpdateNoteHandler_saved _ _ _ u id) by auto.
  destruct (ConvertImageToMarkdown _ _ _ _) as [w2 [text|err]] eqn:Hconv;
    apply Convert_frame_eq in Hconv as (Hdb & _); simpl in Hdb.
  - pose proof (UpdateNote_date_created (db w2) id
                  (stored_filename (header u)) text k) as Hd.
    destruct (UpdateNote _ _ _ _) as [d [note|err]]; simpl in *;
      by rewrite Hd, Hdb.
  - simpl. by rewrite Hdb.
Qed.

Lemma RegenerateNoteHandler_dates amb r w k :
  date_created <$> notes (db (RegenerateNoteHandler amb r w).1) !! k
  = date_created <$> notes (db w) !! k.
Proof.
  destruct (RegenerateNoteHandler_early amb r w)
    as [(id & Hm & Hid & Hp)|(-> & _)]; [|done].
  rewrite (RegenerateNoteHandler_parsed _ _ _ id) by done.
  destruct (GetNoteByID _ _) as [note|err]; [|done]. simpl.
  destruct (os_IsNotExist _); [done|].
  destruct (ConvertImageToMarkdown _ _ _ _) as [w2 [text|err]] eqn:Hconv;
    apply Convert_frame_eq in Hconv as (Hdb & _).
  - pose proof (UpdateNote_date_created (db w2) id (Image note) text k) as Hd.
    destruct (UpdateNote _ _ _ _) as [d [updated|err]]; simpl in *;
      by rewrite Hd, Hdb.
  - simpl. by rewrite Hdb.
Qed.

(** Once the upload is on disk, it stays there whatever happens next. *)
Lemma AddNoteHandler_files amb r w u :
  reaches_disk amb r u →
  files (AddNoteHandler amb r w).1 = <[image_path u := content u]> (files w).
Proof.
  intros Hu. rewrite (AddNoteHandler_saved _ _ _ u) by done.
  destruct (ConvertImageToMarkdown _ _ _ _) as [w2 [text|err]] eqn:Hconv;
    apply Convert_frame_eq in Hconv as (_ & Hfiles & _); [|done].
  by destruct (AddNote _ _ _ _ _) as [d [note|err]].
Qed.

Lemma UpdateNoteHandler_files amb r w u id :
  update_reaches_disk amb r u → Atoi (FormValue r "id") = Some id →
  files (UpdateNoteHandler amb r w).1 = <[image_path u := content u]> (files w).
Proof.
  intros Hu Hid. rewrite (UpdateNoteHandler_saved _ _ _ u id) by auto.
  destruct (ConvertImageToMarkdown _ _ _ _) as [w2 [text|err]] eqn:Hconv;
    apply Convert_frame_eq in Hconv as (_ & Hfiles & _); [|done].
  by destruct (UpdateNote _ _ _ _) as [d [note|err]].
Qed.

(** What a 200 says. *)
Lemma AddNoteHandler_200 amb r w :
  StatusCode (AddNoteHandler amb r w).2 = StatusOK →
  reports_stored_row (AddNoteHandler amb r w).
Proof.
  destruct (AddNoteHandler_early amb r w) as [(u & Hu)|(_ & _ & Hst)];
    [|done].
  rewrite (AddNoteHandler_saved _ _ _ u) by done.
  destruct (ConvertImageToMarkdown _ _ _ _) as [w2 [text|err]]; [|done].
  destruct (AddNote _ _ _ _ _) as [d [note|err]] eqn:Hadd; [|done].
  intros _. apply AddNote_Ok in Hadd as (Hrow & Himg & Hmd & _).
  exists (ID note), (mkRow (CURRENT_TIMESTAMP amb)
                       (stored_filename (header u)) text).
  simpl. by rewrite Himg, Hmd.
Qed.

Lemma UpdateNoteHandler_200 amb r w :
  StatusCode (UpdateNoteHandler amb r w).2 = StatusOK →
  reports_stored_row (UpdateNoteHandler amb r w).
Proof.
  destruct (UpdateNoteHandler_early amb r w)
    as [(u & id & Hu & Hid)|(_ & _ & Hst)]; [|done].
  rewrite (UpdateNoteHandler_saved _ _ _ u id) by auto.
  destruct (ConvertImageToMarkdown _ _ _ _) as [w2 [text|err]]; [|done].
  destruct (UpdateNote _ _ _ _) as [d [note|err]] eqn:Hupd; [|done].
  intros _. apply UpdateNote_Ok in Hupd as (row & Hrow & -> & ->).
  exists id, (mkRow (date_created row) (stored_filename (header u)) text).
  simpl. by rewrite lookup_insert_eq.
Qed.

Lemma RegenerateNoteHandler_200 amb r w :
  StatusCode (RegenerateNoteHandler amb r w).2 = StatusOK →
  reports_stored_row (RegenerateNoteHandler amb r w).
Proof.
  destruct (RegenerateNoteHandler_early amb r w)
    as [(id & Hm & Hid & Hp)|(_ & Hst)]; [|done].
  rewrite (RegenerateNoteHandler_parsed _ _ _ id) by done.
  destruct (GetNoteByID _ _) as [note|err]; [|done]. simpl.
  destruct (os_IsNotExist _); [done|].
  destruct (ConvertImageToMarkdown _ _ _ _) as [w2 [text|err]]; [|done].
  destruct (UpdateNote _ _ _ _) as [d [updated|err]] eqn:Hupd; [|done].
  intros _. apply UpdateNote_Ok in Hupd as (row & Hrow & -> & ->).
  exists id, (mkRow (date_created row) (Image note) text).
  simpl. by rewrite lookup_insert_eq.
Qed.

(** An unknown id: 404 from the lookup of [/api/regenerate-note], 500 from
    the update of [/api/update-note]. *)
Lemma RegenerateNoteHandler_unknown amb r w id :
  Method r = MethodPost → Atoi (FormValue r "id") = Some id →
  form_err r = None → notes (db w) !! id = None →
  RegenerateNoteHandler amb r w
  = (w, failure ("Failed to retrieve note: " +:+ Error (no_note_found id))
          StatusNotFound).
Proof.
  intros Hm Hid Hp Hnone.
  rewrite (RegenerateNoteHandler_parsed _ _ _ id) by done.
  by rewrite GetNoteByID_absent.
Qed.

Lemma UpdateNoteHandler_unknown amb r w u id text :
  update_reaches_disk amb r u → Atoi (FormValue r "id") = Some id →
  (ConvertImageToMarkdown amb (aiClient w) (image_path u) (saved w u)).2
  = Ok text →
  notes (db w) !! id = None →
  (UpdateNoteHandler amb r w).2
  = failure "Failed to update database" StatusInternalServerError.
Proof.
  intros Hu Hid Hconv Hnone.
  rewrite (UpdateNoteHandler_saved _ _ _ u id) by auto.
  destruct (ConvertImageToMarkdown _ _ _ _) as [w2 res] eqn:Heq.
  simpl in Hconv. subst res.
  apply Convert_frame_eq in Heq as (Hdb & _). simpl in Hdb.
  by rewrite UpdateNote_absent by (by rewrite Hdb).
Qed.
End Handlers.

(** ** The note life cycle *)

(** C1. [UpdateNote] on an id that matches no row fails with the
    "no note found" error and returns the table as it was: no image, no
    markdown and no creation date is changed. *)
Theorem UpdateNote_unknown_id (d : DB) (id : Z) (img md : string) :
  notes d !! id = None →
  UpdateNote d id img md = (d, Err (no_note_found id)).
Proof. apply UpdateNote_absent. Qed.

Lemma UpdateNote_unknown_id_witness :
  notes (db one_note) !! 7 = None ∧
  UpdateNote (db one_note) 7 "11.png" "# Other"
  = (db one_note, Err (no_note_found 7)).
Proof.
  split; [reflexivity|]. apply UpdateNote_unknown_id. reflexivity.
Defined.

(** What [GetAllNotes] lists is what the table holds. *)
Lemma GetAllNotes_stored (d : DB) :
  ∃ l, GetAllNotes d = Ok l ∧ newest_first l ∧
       (∀ note, note ∈ l ↔
          notes d !! ID note
          = Some (mkRow (DateCreated note) (Image note) (Markdown note))) ∧
       NoDup (ID <$> l) ∧
       length l = size (notes d).
Proof.
  destruct (GetAllNotes_newest_first d) as (l & Hl & Hsorted & Hperm).
  exists l. split; [done|]. split; [done|]. split; [|split].
  - intros note. rewrite Hperm, list_elem_of_fmap. split.
    + intros ([k [ts img md]] & -> & Hin).
      by apply elem_of_map_to_list in Hin.
    + intros Hrow.
      exists (ID note, mkRow (DateCreated note) (Image note) (Markdown note)).
      split; [by destruct note|]. by apply elem_of_map_to_list.
  - rewrite Hperm, <- list_fmap_compose.
    assert (ID ∘ note_of_row = fst) as -> by done.
    apply NoDup_fst_map_to_list.
  - rewrite Hperm, length_fmap. apply length_map_to_list.
Qed.

(** C7. In every state of the table [GetAllNotes] succeeds and returns the
    stored notes, each once and nothing else: a note with id, creation
    time, image and markdown is in the list exactly when the table holds
    that creation time, image and markdown under that id.  The list is
    newest first: whenever one note comes before another, its creation time
    is not the smaller one.  In particular this holds after any run of
    creates, whatever the order in which their timestamps arrive. *)
Theorem GetAllNotes_descending :
  (∀ d : DB,
     ∃ l, GetAllNotes d = Ok l ∧
          StronglySorted (λ a b, DateCreated b ≤ DateCreated a) l ∧
          (∀ note, note ∈ l ↔
             notes d !! ID note
             = Some (mkRow (DateCreated note) (Image note) (Markdown note))) ∧
          NoDup (ID <$> l) ∧
          length l = size (notes d)) ∧
  (∀ ops,
     ∃ l, GetAllNotes (creates ops empty_db) = Ok l ∧
          StronglySorted (λ a b, DateCreated b ≤ DateCreated a) l ∧
          (∀ note, note ∈ l ↔
             notes (creates ops empty_db) !! ID note
             = Some (mkRow (DateCreated note) (Image note) (Markdown note)))).
Proof.
  split.
  - apply GetAllNotes_stored.
  - intros ops.
    destruct (GetAllNotes_stored (creates ops empty_db))
      as (l & Hl & Hsorted & Hin & _).
    by exists l.
Qed.

(** C8. [UpdateNote] on an existing id succeeds, returns the row as it now
    reads, replaces the image and the markdown of that row, keeps its
    creation date, and leaves every other row and the id counter alone.
    Neither [/api/update-note] nor [/api/regenerate-note] ever changes a
    creation date. *)
Theorem UpdateNote_existing_id `{Codec} (d : DB) (id : Z) (img md : string)
    (row : Row) :
  notes d !! id = Some row →
  (∃ d', UpdateNote d id img md
           = (d', Ok (mkNote id (date_created row) img md)) ∧
         notes d' !! id = Some (mkRow (date_created row) img md) ∧
         (∀ k, k ≠ id → notes d' !! k = notes d !! k) ∧
         sqlite_sequence d' = sqlite_sequence d) ∧
  (∀ amb r w k,
     date_created <$> notes (db (UpdateNoteHandler amb r w).1) !! k
     = date_created <$> notes (db w) !! k) ∧
  (∀ amb r w k,
     date_created <$> notes (db (RegenerateNoteHandler amb r w).1) !! k
     = date_created <$> notes (db w) !! k).
Proof.
  intros Hid. split; [|split].
  - eexists. split; [by apply UpdateNote_present|]. simpl.
    split; [by rewrite lookup_insert_eq|].
    split; [|done]. intros k Hk. by rewrite lookup_insert_ne.
  - apply UpdateNoteHandler_dates.
  - apply RegenerateNoteHandler_dates.
Qed.

Lemma UpdateNote_existing_id_witness :
  notes (db one_note) !! 1 = Some (mkRow 1700000000 "10.png" "# Title") ∧
  (UpdateNote (db one_note) 1 "11.png" "# Other").2
  = Ok (mkNote 1 1700000000 "11.png" "# Other").
Proof.
  split; [reflexivity|].
  destruct (UpdateNote_existing_id (H := test_codec) (db one_note) 1
              "11.png" "# Other" (mkRow 1700000000 "10.png" "# Title")
              eq_refl) as [(d' & Heq & _) _].
  by rewrite Heq.
Defined.

(** ** Transcription failures *)

(** C9. When the chat-completion call succeeds with an empty list of
    choices, [ConvertImageToMarkdown] returns the error "no response choices
    returned", and it returns that error in no other situation.  Every
    success is the content of the first choice of a non-empty answer, so the
    empty string is a success only when that content is empty. *)
Theorem ConvertImageToMarkdown_choices `{Codec} (amb : Ambient)
    (client : option Client) (path : string) (w : World) :
  let res := (ConvertImageToMarkdown amb client path w).2 in
  (∀ c data,
     resolve amb client = Some c → files w !! path = Some data →
     endpoint amb c (request_for data) = Ok (mkResponse []) →
     res = Err (Errorf "no response choices returned") ∧ res ≠ Ok "") ∧
  (res = Err (Errorf "no response choices returned") →
   ∃ c data, resolve amb client = Some c ∧ files w !! path = Some data ∧
             endpoint amb c (request_for data) = Ok (mkResponse [])) ∧
  (∀ text, res = Ok text →
     ∃ c data choice rest,
       resolve amb client = Some c ∧ files w !! path = Some data ∧
       endpoint amb c (request_for data) = Ok (mkResponse (choice :: rest)) ∧
       text = Content choice).
Proof.
  intros res. subst res. split; [|split].
  - intros c data Hc Hf He.
    rewrite (Convert_no_choices _ _ _ _ c data) by done. done.
  - apply Convert_no_choices_inv.
  - intros text Hres.
    destruct (ConvertImageToMarkdown amb client path w) as [w' r] eqn:Heq.
    simpl in Hres. subst r. by eapply Convert_Ok.
Qed.

Lemma ConvertImageToMarkdown_choices_witness :
  resolve (quiet []) (Some gemini) = Some gemini ∧
  files one_note !! "images/10.png" = Some ten_bytes ∧
  endpoint (quiet []) gemini (request_for (H := test_codec) ten_bytes)
  = Ok (mkResponse []) ∧
  (ConvertImageToMarkdown (H := test_codec) (quiet []) (Some gemini)
     "images/10.png" one_note).2
  = Err (Errorf "no response choices returned").
Proof.
  repeat (split; [reflexivity|]).
  destruct (ConvertImageToMarkdown_choices (H := test_codec) (quiet [])
              (Some gemini) "images/10.png" one_note) as [Hnone _].
  apply (Hnone gemini ten_bytes); reflexivity.
Defined.

(** C3. When the transcription of an upload to [/api/add-note] fails, the
    answer is 500 "Failed to convert image to markdown" and the table is the
    one the request found; this is the case whenever the endpoint returns
    zero choices.  The table changes only after a successful transcription,
    and then the answer is 200. *)
Theorem AddNoteHandler_transcription_failure `{Codec} (amb : Ambient)
    (r : Request) (w : World) :
  let out := AddNoteHandler amb r w in
  (∀ u w2 err,
     reaches_disk amb r u →
     ConvertImageToMarkdown amb (aiClient w) (image_path u) (saved w u)
     = (w2, Err err) →
     out = (w2, failure "Failed to convert image to markdown"
                  StatusInternalServerError) ∧
     db out.1 = db w) ∧
  (∀ u,
     reaches_disk amb r u →
     (∀ c q, endpoint amb c q = Ok (mkResponse [])) →
     StatusCode out.2 = StatusInternalServerError ∧ db out.1 = db w) ∧
  (db out.1 ≠ db w →
   StatusCode out.2 = StatusOK ∧
   ∃ u text,
     reaches_disk amb r u ∧
     (ConvertImageToMarkdown amb (aiClient w) (image_path u) (saved w u)).2
     = Ok text).
Proof.
  intros out. subst out.
  assert (∀ u w2 err,
     reaches_disk amb r u →
     ConvertImageToMarkdown amb (aiClient w) (image_path u) (saved w u)
     = (w2, Err err) →
     AddNoteHandler amb r w
     = (w2, failure "Failed to convert image to markdown"
              StatusInternalServerError) ∧
     db (AddNoteHandler amb r w).1 = db w) as Hfail.
  { intros u w2 err Hu Hconv.
    rewrite (AddNoteHandler_saved _ _ _ u), Hconv by done.
    split; [done|]. simpl.
    apply Convert_frame_eq in Hconv as (Hd2 & _). exact Hd2. }
  split; [exact Hfail|]. split.
  - intros u Hu Hnone.
    destruct (Convert_never_a_choice amb (aiClient w) (image_path u)
                (saved w u) Hnone) as [err Herr].
    destruct (ConvertImageToMarkdown amb (aiClient w) (image_path u)
                (saved w u)) as [w2 res] eqn:Hconv.
    simpl in Herr. subst res.
    destruct (Hfail u w2 err Hu Hconv) as [Hout Hdb].
    split; [by rewrite Hout | exact Hdb].
  - intros Hdb.
    destruct (AddNoteHandler_early amb r w) as [(u & Hu)|(Hsame & _)];
      [|by destruct Hdb].
    revert Hdb. rewrite (AddNoteHandler_saved _ _ _ u) by done.
    destruct (ConvertImageToMarkdown _ _ _ _) as [w2 [text|err]] eqn:Hconv;
      pose proof (Convert_frame_eq _ _ _ _ _ _ Hconv) as (Hd2 & _);
      simpl in Hd2.
    + destruct (AddNote _ _ _ _ _) as [d [note|err]] eqn:Hadd; simpl.
      * intros _. split; [done|]. exists u, text. by rewrite Hconv.
      * apply AddNote_Err in Hadd as ->. by rewrite Hd2.
    + simpl. by rewrite Hd2.
Qed.

Lemma AddNoteHandler_transcription_failure_witness :
  let r := post "" (Some (png "b.png" ten_other_bytes)) in
  reaches_disk (quiet []) r (png "b.png" ten_other_bytes) ∧
  StatusCode (AddNoteHandler (H := test_codec) (quiet []) r one_note).2
  = StatusInternalServerError ∧
  db (AddNoteHandler (H := test_codec) (quiet []) r one_note).1 = db one_note.
Proof.
  intros r.
  assert (reaches_disk (quiet []) r (png "b.png" ten_other_bytes)) as Hu
    by (repeat split; reflexivity).
  split; [exact Hu|].
  destruct (AddNoteHandler_transcription_failure (H := test_codec)
              (quiet []) r one_note) as (_ & Hnone & _).
  apply (Hnone _ Hu). reflexivity.
Defined.

(** ** Regeneration *)

(** C4. [/api/regenerate-note] never writes a file and never changes the
    image column of any row.  When it answers 200, the table differs from
    the one it found in one row only, the row of the requested id, and
    there only in the markdown, which is the new transcription of the
    stored image; the answer reports the same image name. *)
Theorem RegenerateNoteHandler_markdown_only `{Codec} (amb : Ambient)
    (r : Request) (w : World) :
  let out := RegenerateNoteHandler amb r w in
  (files out.1 = files w ∧
   ∀ k, image <$> notes (db out.1) !! k = image <$> notes (db w) !! k) ∧
  (StatusCode out.2 = StatusOK →
   ∃ id row text,
     Atoi (FormValue r "id") = Some id ∧
     notes (db w) !! id = Some row ∧
     (ConvertImageToMarkdown amb (aiClient w)
        (Join "./images" (image row)) w).2 = Ok text ∧
     db out.1 = mkDB (<[id := mkRow (date_created row) (image row) text]>
                        (notes (db w)))
                     (sqlite_sequence (db w)) ∧
     out.2 = success (mkNote id (date_created row) (image row) text)).
Proof.
  intros out. subst out.
  destruct (RegenerateNoteHandler_early amb r w)
    as [(id & Hm & Hid & Hp)|(-> & Hst)]; [|done].
  rewrite (RegenerateNoteHandler_parsed _ _ _ id) by done.
  destruct (GetNoteByID (db w) id) as [note|err] eqn:Hget; [|done].
  apply GetNoteByID_Ok in Hget as (row & Hrow & ->). simpl.
  destruct (os_IsNotExist _); [done|].
  destruct (ConvertImageToMarkdown _ _ _ _) as [w2 [text|err]] eqn:Hconv;
    pose proof (Convert_frame_eq _ _ _ _ _ _ Hconv) as (Hdb & Hfiles & _).
  2:{ simpl. by rewrite Hdb, Hfiles. }
  rewrite (UpdateNote_present _ _ _ _ row) by (by rewrite Hdb). simpl.
  rewrite Hdb, Hfiles. split.
  - split; [done|]. intros k. destruct (decide (id = k)) as [<-|Hne].
    + by rewrite lookup_insert_eq, Hrow.
    + by rewrite lookup_insert_ne.
  - intros _. exists id, row, text. by rewrite Hconv.
Qed.

Lemma RegenerateNoteHandler_markdown_only_witness :
  let out := RegenerateNoteHandler (H := test_codec) (quiet ["# Again"])
               (post "1" None) one_note in
  StatusCode out.2 = StatusOK ∧
  notes (db out.1) !! 1 = Some (mkRow 1700000000 "10.png" "# Again") ∧
  files out.1 = files one_note.
Proof.
  intros out. split; [reflexivity|].
  destruct (RegenerateNoteHandler_markdown_only (H := test_codec)
              (quiet ["# Again"]) (post "1" None) one_note)
    as [[Hfiles _] Hok].
  split; [|exact Hfiles].
  destruct (Hok eq_refl) as (id & row & text & Hid & Hrow & Hconv & Hdb & _).
  subst out. rewrite Hdb. simpl.
  injection Hid as <-. injection Hrow as <-. injection Hconv as <-.
  reflexivity.
Defined.

(** ** Unknown ids *)

(** C2, as the code has it.  A request whose well-formed id matches no
    stored note, and which is otherwise fine, is answered with 404 by
    [/api/regenerate-note], where the lookup fails, and with 500 by
    [/api/update-note], where the update fails.  For
    [/api/regenerate-note] the answer is 404 as soon as the method is POST
    and the form parses, and the world is left as it was; for
    [/api/update-note] it is 500 "Failed to update database" as soon as the
    upload is on disk and has been transcribed. *)
Theorem unknown_id_404_or_500 `{Codec} :
  unknown_id_status RegenerateNoteHandler StatusNotFound ∧
  unknown_id_status UpdateNoteHandler StatusInternalServerError ∧
  (∀ amb r w id,
     Method r = MethodPost → Atoi (FormValue r "id") = Some id →
     form_err r = None → notes (db w) !! id = None →
     (RegenerateNoteHandler amb r w).1 = w ∧
     StatusCode (RegenerateNoteHandler amb r w).2 = StatusNotFound) ∧
  (∀ amb r w u id text,
     reaches_disk amb r u → Atoi (FormValue r "id") = Some id →
     (ConvertImageToMarkdown amb (aiClient w) (image_path u) (saved w u)).2
     = Ok text →
     notes (db w) !! id = None →
     (UpdateNoteHandler amb r w).2
     = failure "Failed to update database" StatusInternalServerError).
Proof.
  split; [|split; [|split]];
    [| | |intros amb r w u id text Hu; apply UpdateNoteHandler_unknown; auto].
  - intros amb r w id Hid Hnone [row Hok].
    destruct (RegenerateNoteHandler_early amb r (put_note id row w))
      as [(id' & Hm & Hid' & Hp)|(_ & Hst)]; [|done].
    by rewrite (RegenerateNoteHandler_unknown _ _ _ id).
  - intros amb r w id Hid Hnone [row Hok].
    destruct (UpdateNoteHandler_early amb r (put_note id row w))
      as [(u & id' & Hu & Hid')|(_ & _ & Hst)]; [|done].
    revert Hok. rewrite (UpdateNoteHandler_saved _ _ _ u id) by auto.
    change (saved (put_note id row w) u)
      with (with_db (saved w u) (db (put_note id row w))).
    rewrite Convert_with_db.
    destruct (ConvertImageToMarkdown amb (aiClient (put_note id row w))
                (image_path u) (saved w u)) as [w2 [text|err]] eqn:Hconv;
      [|done].
    intros _. simpl in Hconv.
    rewrite (UpdateNoteHandler_unknown _ _ _ u id text); try done.
    by rewrite Hconv.
  - intros amb r w id Hm Hid Hp Hnone.
    by rewrite (RegenerateNoteHandler_unknown _ _ _ id).
Qed.

Lemma unknown_id_404_or_500_witness :
  let amb := quiet ["# Title"] in
  let r := post "7" (Some (png "a.png" ten_bytes)) in
  Atoi (FormValue r "id") = Some 7 ∧
  notes (db one_note) !! 7 = None ∧
  StatusCode (UpdateNoteHandler (H := test_codec) amb r
                (put_note 7 (mkRow 0 "x.png" "") one_note)).2 = StatusOK ∧
  StatusCode (UpdateNoteHandler (H := test_codec) amb r one_note).2
  = StatusInternalServerError.
Proof.
  intros amb r. repeat (split; [reflexivity|]).
  destruct (unknown_id_404_or_500 (H := test_codec)) as (_ & Hupd & _ & _).
  apply (Hupd amb r one_note 7); [reflexivity|reflexivity|].
  exists (mkRow 0 "x.png" ""). reflexivity.
Defined.

(** C2, as the claim has it, fails: [/api/update-note] answers an unknown
    id with 500. *)
Lemma unknown_id_not_always_404 :
  ¬ (∀ codec : Codec,
       unknown_id_status (UpdateNoteHandler (H := codec)) StatusNotFound ∧
       unknown_id_status (RegenerateNoteHandler (H := codec)) StatusNotFound).
Proof.
  intros Hall. destruct (Hall test_codec) as [Hupd _].
  specialize (Hupd (quiet ["# Title"]) (post "7" (Some (png "a.png" ten_bytes)))
                one_note 7 eq_refl eq_refl
                (ex_intro _ (mkRow 0 "x.png" "") eq_refl)).
  vm_compute in Hupd. discriminate Hupd.
Qed.

(** ** Stored file names *)

(** C6. The stored name of an upload is its declared size in decimal
    followed by the extension of its original name, so two uploads that
    agree on both get the same name, whatever their bytes.  After the first
    upload its bytes are under that name; after the second, through
    [/api/add-note] or [/api/update-note], the bytes of the second are. *)
Theorem stored_filename_collision `{Codec} :
  (∀ h, stored_filename h = Itoa (Size h) +:+ Ext (Filename h)) ∧
  (∀ h1 h2,
     Size h1 = Size h2 → Ext (Filename h1) = Ext (Filename h2) →
     stored_filename h1 = stored_filename h2) ∧
  (∀ amb1 amb2 r1 r2 w u1 u2,
     reaches_disk amb1 r1 u1 → reaches_disk amb2 r2 u2 →
     Size (header u1) = Size (header u2) →
     Ext (Filename (header u1)) = Ext (Filename (header u2)) →
     let w1 := (AddNoteHandler amb1 r1 w).1 in
     files w1 !! image_path u1 = Some (content u1) ∧
     files (AddNoteHandler amb2 r2 w1).1 !! image_path u1
     = Some (content u2) ∧
     (∀ id, Atoi (FormValue r2 "id") = Some id →
            files (UpdateNoteHandler amb2 r2 w1).1 !! image_path u1
            = Some (content u2))).
Proof.
  assert (∀ h1 h2 : FileHeader,
            Size h1 = Size h2 → Ext (Filename h1) = Ext (Filename h2) →
            stored_filename h1 = stored_filename h2) as Hsame.
  { intros h1 h2 Hsize Hext. unfold stored_filename. by rewrite Hsize, Hext. }
  split; [done|]. split; [exact Hsame|].
  intros amb1 amb2 r1 r2 w u1 u2 Hu1 Hu2 Hsize Hext w1.
  assert (image_path u2 = image_path u1) as Hpath.
  { unfold image_path. f_equal. symmetry. by apply Hsame. }
  subst w1. split; [|split].
  - rewrite (AddNoteHandler_files _ _ _ u1) by done. apply lookup_insert_eq.
  - rewrite (AddNoteHandler_files _ _ _ u2) by done.
    rewrite Hpath. apply lookup_insert_eq.
  - intros id Hid. rewrite (UpdateNoteHandler_files _ _ _ u2 id) by auto.
    rewrite Hpath. apply lookup_insert_eq.
Qed.

Lemma stored_filename_collision_witness :
  let u1 := png "a.png" ten_bytes in
  let u2 := png "scan.png" ten_other_bytes in
  stored_filename (header u1) = stored_filename (header u2) ∧
  files (AddNoteHandler (H := test_codec) (quiet ["# Two"]) (post "" (Some u2))
           one_note).1 !! "images/10.png"
  = Some ten_other_bytes.
Proof.
  intros u1 u2.
  destruct (stored_filename_collision (H := test_codec)) as (_ & Hname & Hfile).
  split; [apply Hname; reflexivity|].
  assert (reaches_disk (quiet ["# Title"]) (post "" (Some u1)) u1) as Hu1
    by (repeat split; reflexivity).
  assert (reaches_disk (quiet ["# Two"]) (post "" (Some u2)) u2) as Hu2
    by (repeat split; reflexivity).
  destruct (Hfile _ _ _ _ fresh u1 u2 Hu1 Hu2 eq_refl eq_refl) as (_ & Hsecond & _).
  exact Hsecond.
Defined.

(** ** The success body *)

Lemma ReplaceAll_other (c : ascii) (s : string) :
  c ≠ newline →
  ReplaceAll (String c s) newline backslash_n
  = String c (ReplaceAll s newline backslash_n).
Proof.
  intros Hc. simpl. destruct (Ascii.eqb c newline) eqn:Heq; [|done].
  by apply Ascii.eqb_eq in Heq.
Qed.

Lemma ReplaceAll_no_newline (s : string) :
  (∀ c, c ∈ list_ascii_of_string s → c ≠ newline) →
  ReplaceAll s newline backslash_n = s.
Proof.
  induction s as [|c s IH]; intros Hs; [done|].
  rewrite ReplaceAll_other by (apply Hs; simpl; left).
  f_equal. apply IH. intros c' Hc'. apply Hs. simpl. by right.
Qed.

(** C10. A 200 from any of the three handlers carries the success format
    filled with the id, the image name and the markdown of a stored row, the
    markdown having gone through [strings.ReplaceAll] and nothing else: a
    newline (byte 10) becomes the two bytes backslash (92) and n (110), and
    every other byte, a double quote or a backslash included, is copied as
    it is.  So a transcription that contains a double quote yields a body
    that is not a JSON text, while one without special characters, or with
    newlines only, yields one that is. *)
Theorem success_body_escapes_newlines_only `{Codec} :
  (∀ amb r w,
     (StatusCode (AddNoteHandler amb r w).2 = StatusOK →
      reports_stored_row (AddNoteHandler amb r w)) ∧
     (StatusCode (UpdateNoteHandler amb r w).2 = StatusOK →
      reports_stored_row (UpdateNoteHandler amb r w)) ∧
     (StatusCode (RegenerateNoteHandler amb r w).2 = StatusOK →
      reports_stored_row (RegenerateNoteHandler amb r w))) ∧
  newline = ascii_of_nat 10 ∧
  backslash_n = String (ascii_of_nat 92) (String (ascii_of_nat 110) "") ∧
  (∀ s, ReplaceAll (String newline s) newline backslash_n
        = String (ascii_of_nat 92)
            (String (ascii_of_nat 110) (ReplaceAll s newline backslash_n))) ∧
  (∀ c s, c ≠ newline →
          ReplaceAll (String c s) newline backslash_n
          = String c (ReplaceAll s newline backslash_n)) ∧
  (∀ s, (∀ c, c ∈ list_ascii_of_string s → c ≠ newline) →
        ReplaceAll s newline backslash_n = s) ∧
  (let out := AddNoteHandler (H := test_codec) (quiet [quoted "hi"])
                (post "" (Some (png "a.png" ten_bytes))) fresh in
   StatusCode out.2 = StatusOK ∧
   Body out.2 = success_format 1 "10.png" (quoted "hi") ∧
   well_formed_json (Body out.2) = Some false) ∧
  (let out := AddNoteHandler (H := test_codec) (quiet ["# Title"])
                (post "" (Some (png "a.png" ten_bytes))) fresh in
   StatusCode out.2 = StatusOK ∧
   well_formed_json (Body out.2) = Some true) ∧
  (let out := AddNoteHandler (H := test_codec)
                (quiet [String "a" (String (ascii_of_nat 10) "b")])
                (post "" (Some (png "a.png" ten_bytes))) fresh in
   StatusCode out.2 = StatusOK ∧
   Body out.2
   = success_format 1 "10.png"
       (String "a" (String (ascii_of_nat 92)
                      (String (ascii_of_nat 110) (String "b" "")))) ∧
   well_formed_json (Body out.2) = Some true).
Proof.
  split; [|split; [|split; [|split; [|split; [|split; [|split; [|split]]]]]]].
  - intros amb r w. split; [|split].
    + apply AddNoteHandler_200.
    + apply UpdateNoteHandler_200.
    + apply RegenerateNoteHandler_200.
  - reflexivity.
  - reflexivity.
  - done.
  - apply ReplaceAll_other.
  - apply ReplaceAll_no_newline.
  - repeat split; vm_compute; reflexivity.
  - repeat split; vm_compute; reflexivity.
  - repeat split; vm_compute; reflexivity.
Qed.

Lemma success_body_escapes_newlines_only_witness :
  let out := AddNoteHandler (H := test_codec) (quiet [quoted "hi"])
               (post "" (Some (png "a.png" ten_bytes))) fresh in
  StatusCode out.2 = StatusOK ∧ reports_stored_row out.
Proof.
  intros out. split; [reflexivity|].
  destruct (success_body_escapes_newlines_only (H := test_codec)) as [Hrep _].
  apply Hrep. reflexivity.
Defined.

(** * Further properties *)

(** ** The note store: creation, deletion, listing *)


Lemma max_rowid_least (t : gmap Z Row) (b : Z) :
  0 ≤ b → (∀ k, is_Some (t !! k) → k ≤ b) → max_rowid t ≤ b.
Proof.
  intros Hb. unfold max_rowid.
  apply (map_fold_weak_ind
           (λ r m, (∀ k, is_Some (m !! k) → k ≤ b) → r ≤ b)); [done|].
  intros i x m r Hi IH Hall.
  assert (i ≤ b) by (apply Hall; by rewrite lookup_insert_eq).
  assert (r ≤ b); [|lia].
  apply IH. intros k Hk. apply Hall.
  destruct (decide (i = k)) as [<-|Hne].
  - by rewrite lookup_insert_eq.
  - by rewrite lookup_insert_ne.
Qed.

Lemma max_rowid_bound (t : gmap Z Row) :
  0 ≤ max_rowid t ∧ ∀ k, is_Some (t !! k) → k ≤ max_rowid t.
Proof.
  unfold max_rowid.
  apply (map_fold_weak_ind (λ b m, 0 ≤ b ∧ ∀ k, is_Some (m !! k) → k ≤ b)).
  - split; [done|]. intros k. rewrite lookup_empty. by intros [? ?].
  - intros i x m r Hi [Hr Hall]. split; [lia|].
    intros k. destruct (decide (i = k)) as [<-|Hne].
    + lia.
    + rewrite lookup_insert_ne by done. intros Hk. specialize (Hall k Hk). lia.
Qed.

Lemma AddNote_inv d ts now img md d' note :
  AddNote d ts now img md = (d', Ok note) →
  let last := Z.max (sqlite_sequence d) (max_rowid (notes d)) in
  last < maxInt64 ∧ note = mkNote (last + 1) now img md ∧
  d' = mkDB (<[last + 1 := mkRow ts img md]> (notes d)) (last + 1).
Proof.
  unfold AddNote, exec_insert, LastInsertId.
  case_decide; simpl; [|done]. by intros [= <- <-].
Qed.

Lemma DeleteNote_present d id row :
  notes d !! id = Some row →
  DeleteNote d id = (mkDB (delete id (notes d)) (sqlite_sequence d), None).
Proof. intros Hid. unfold DeleteNote, exec_delete. by rewrite Hid. Qed.

Lemma DeleteNote_absent d id :
  notes d !! id = None → DeleteNote d id = (d, Some (no_note_found id)).
Proof. intros Hid. unfold DeleteNote, exec_delete. by rewrite Hid. Qed.

Lemma apply_op_counter d o :
  sqlite_sequence d ≤ sqlite_sequence (apply_op d o).
Proof.
  destruct o as [ts now img md|id img md|id]; simpl.
  - destruct (AddNote d ts now img md) as [d' [note|err]] eqn:Hadd.
    + apply AddNote_inv in Hadd as (_ & _ & ->). simpl. lia.
    + apply AddNote_Err in Hadd as ->. done.
  - destruct (notes d !! id) as [row|] eqn:Hid.
    + by rewrite (UpdateNote_present _ _ _ _ row).
    + by rewrite UpdateNote_absent.
  - destruct (notes d !! id) as [row|] eqn:Hid.
    + by rewrite (DeleteNote_present _ _ row).
    + by rewrite DeleteNote_absent.
Qed.

Lemma run_ops_counter ops d :
  sqlite_sequence d ≤ sqlite_sequence (run_ops ops d).
Proof.
  revert d. induction ops as [|o ops IH]; intros d; simpl; [done|].
  etrans; [apply (apply_op_counter d o)|apply IH].
Qed.

Lemma apply_op_ids d o : ids_below_counter d → ids_below_counter (apply_op d o).
Proof.
  intros [Hseq Hd]. unfold ids_below_counter.
  destruct o as [ts now img md|id img md|id]; simpl.
  - destruct (AddNote d ts now img md) as [d' [note|err]] eqn:Hadd.
    + apply AddNote_inv in Hadd as (_ & _ & ->). simpl.
      pose proof (max_rowid_bound (notes d)) as [H0 _].
      split; [lia|]. intros k.
      destruct (decide (Z.max (sqlite_sequence d) (max_rowid (notes d)) + 1 = k))
        as [<-|Hne].
      * intros _. lia.
      * rewrite lookup_insert_ne by done. intros Hk. specialize (Hd k Hk). lia.
    + by apply AddNote_Err in Hadd as ->.
  - destruct (notes d !! id) as [row|] eqn:Hid.
    + rewrite (UpdateNote_present _ _ _ _ row) by done. simpl.
      split; [done|]. intros k. destruct (decide (id = k)) as [<-|Hne].
      * intros _. apply Hd. by rewrite Hid.
      * rewrite lookup_insert_ne by done. apply Hd.
    + by rewrite UpdateNote_absent.
  - destruct (notes d !! id) as [row|] eqn:Hid.
    + rewrite (DeleteNote_present _ _ row) by done. simpl.
      split; [done|]. intros k. destruct (decide (id = k)) as [<-|Hne].
      * rewrite lookup_delete_eq. by intros [? ?].
      * rewrite lookup_delete_ne by done. apply Hd.
    + by rewrite DeleteNote_absent.
Qed.

Lemma run_ops_ids ops d : ids_below_counter d → ids_below_counter (run_ops ops d).
Proof.
  revert d. induction ops as [|o ops IH]; intros d Hd; simpl; [done|].
  apply IH. by apply apply_op_ids.
Qed.

(** X1. When [AddNote] succeeds, the id it returns was not in the table, is
    greater than every id in the table and than the counter, and lies
    between 1 and the largest 64-bit integer.  The table gains the row
    (database timestamp, image, markdown) under that id, nothing else
    changes, and the counter becomes that id. *)
Theorem AddNote_fresh_id (d d' : DB) (ts now : Z) (img md : string)
    (note : Note) :
  AddNote d ts now img md = (d', Ok note) →
  notes d !! ID note = None ∧
  (∀ k, is_Some (notes d !! k) → k < ID note) ∧
  sqlite_sequence d < ID note ∧ 1 ≤ ID note ≤ maxInt64 ∧
  notes d' = <[ID note := mkRow ts img md]> (notes d) ∧
  sqlite_sequence d' = ID note.
Proof.
  intros Hadd. apply AddNote_inv in Hadd as (Hlast & -> & ->). simpl.
  pose proof (max_rowid_bound (notes d)) as [H0 Hall].
  assert (∀ k, is_Some (notes d !! k) →
               k < Z.max (sqlite_sequence d) (max_rowid (notes d)) + 1) as Hlt.
  { intros k Hk. specialize (Hall k Hk). lia. }
  split; [|split; [done|]; repeat split; lia].
  destruct (notes d !! _) as [row|] eqn:Hrow; [|done].
  specialize (Hlt _ (mk_is_Some _ _ Hrow)). lia.
Qed.

Lemma AddNote_fresh_id_witness :
  let out := AddNote (db one_note) 1700000500 1700000501 "11.png" "# Two" in
  out.2 = Ok (mkNote 2 1700000501 "11.png" "# Two") ∧
  notes (db one_note) !! 2 = None ∧ sqlite_sequence out.1 = 2.
Proof.
  intros out. split; [reflexivity|].
  destruct (AddNote_fresh_id (db one_note) out.1 1700000500 1700000501
              "11.png" "# Two" (mkNote 2 1700000501 "11.png" "# Two")
              eq_refl) as (Hfresh & _ & _ & _ & _ & Hseq).
  split; [exact Hfresh|exact Hseq].
Defined.

(** X2. After a successful [AddNote], [GetNoteByID] on the returned id finds
    the note with the image and markdown that were given.  The note that
    [AddNote] itself returns carries the clock of the process, the stored
    one the clock of the database.  Every note that could be read before can
    still be read, unchanged. *)
Theorem AddNote_GetNoteByID (d d' : DB) (ts now : Z) (img md : string)
    (note : Note) :
  AddNote d ts now img md = (d', Ok note) →
  note = mkNote (ID note) now img md ∧
  GetNoteByID d' (ID note) = Ok (mkNote (ID note) ts img md) ∧
  (∀ k, k ≠ ID note → GetNoteByID d' k = GetNoteByID d k) ∧
  (∀ k n, GetNoteByID d k = Ok n → GetNoteByID d' k = Ok n).
Proof.
  intros Hadd. pose proof (AddNote_inv _ _ _ _ _ _ _ Hadd) as (Hlast & Hn & Hd).
  pose proof (max_rowid_bound (notes d)) as [H0 Hall].
  assert (∀ k, k ≠ ID note → GetNoteByID d' k = GetNoteByID d k) as Hother.
  { intros k Hk. unfold GetNoteByID, query_row_scan. subst d' note. simpl in *.
    by rewrite lookup_insert_ne. }
  split; [by subst note|]. split; [|split; [done|]].
  - apply AddNote_Ok in Hadd as (Hrow & _). by rewrite (GetNoteByID_present _ _ _ Hrow).
  - intros k n Hget. rewrite Hother; [done|].
    apply GetNoteByID_Ok in Hget as (row & Hrow & _).
    specialize (Hall k (mk_is_Some _ _ Hrow)). subst note. simpl. lia.
Qed.

Lemma AddNote_GetNoteByID_witness :
  let out := AddNote (db one_note) 1700000500 1700000501 "11.png" "# Two" in
  out.2 = Ok (mkNote 2 1700000501 "11.png" "# Two") ∧
  GetNoteByID out.1 2 = Ok (mkNote 2 1700000500 "11.png" "# Two").
Proof.
  intros out. split; [reflexivity|].
  destruct (AddNote_GetNoteByID (db one_note) out.1 1700000500 1700000501
              "11.png" "# Two" (mkNote 2 1700000501 "11.png" "# Two")
              eq_refl) as (_ & Hget & _).
  exact Hget.
Defined.

(** X3. Ids are never reused: a note created after another one, whatever
    creations, updates and deletions happen in between (the deletion of the
    first note included), gets a greater id. *)
Theorem ids_never_reused (d d1 d3 : DB) (ops : list store_op)
    (ts1 now1 ts2 now2 : Z) (img1 md1 img2 md2 : string) (n1 n2 : Note) :
  AddNote d ts1 now1 img1 md1 = (d1, Ok n1) →
  AddNote (run_ops ops d1) ts2 now2 img2 md2 = (d3, Ok n2) →
  ID n1 < ID n2.
Proof.
  intros H1 H2.
  apply AddNote_inv in H1 as (_ & -> & ->).
  apply AddNote_inv in H2 as (_ & -> & _). simpl.
  pose proof (run_ops_counter ops
    (mkDB (<[Z.max (sqlite_sequence d) (max_rowid (notes d)) + 1 := mkRow ts1 img1 md1]> (notes d))
          (Z.max (sqlite_sequence d) (max_rowid (notes d)) + 1))) as Hmono.
  simpl in Hmono. lia.
Qed.

Lemma ids_never_reused_witness :
  let first := AddNote (db one_note) 1700000500 1700000501 "11.png" "# Two" in
  let later := AddNote (run_ops [op_delete 2] first.1)
                 1700000600 1700000601 "12.png" "# Three" in
  first.2 = Ok (mkNote 2 1700000501 "11.png" "# Two") ∧
  later.2 = Ok (mkNote 3 1700000601 "12.png" "# Three") ∧
  ID (mkNote 2 1700000501 "11.png" "# Two")
  < ID (mkNote 3 1700000601 "12.png" "# Three").
Proof.
  intros first later. split; [reflexivity|]. split; [reflexivity|].
  apply (ids_never_reused (db one_note) first.1 later.1 [op_delete 2]
           1700000500 1700000501 1700000600 1700000601
           "11.png" "# Two" "12.png" "# Three"); reflexivity.
Defined.

(** X4. In every table reached from the empty one by calls of [AddNote],
    [UpdateNote] and [DeleteNote], all ids are at least 1 and at most the
    counter, and the next successful [AddNote] returns the counter plus
    one. *)
Theorem store_invariant (ops : list store_op) :
  let d := run_ops ops empty_db in
  ids_below_counter d ∧
  (∀ ts now img md d' note,
     AddNote d ts now img md = (d', Ok note) →
     ID note = sqlite_sequence d + 1).
Proof.
  intros d.
  assert (ids_below_counter d) as Hd.
  { apply run_ops_ids. split; [done|]. intros k. simpl.
    rewrite lookup_empty. by intros [? ?]. }
  split; [done|].
  intros ts now img md d' note Hadd.
  apply AddNote_inv in Hadd as (_ & -> & _). simpl.
  destruct Hd as [Hseq Hd].
  assert (max_rowid (notes d) ≤ sqlite_sequence d); [|lia].
  apply max_rowid_least; [done|]. intros k Hk. by apply Hd.
Qed.

Lemma store_invariant_witness :
  let d := run_ops [op_add 1 2 "10.png" "a"; op_delete 1] empty_db in
  (AddNote d 3 4 "11.png" "b").2 = Ok (mkNote 2 4 "11.png" "b") ∧
  ID (mkNote 2 4 "11.png" "b") = sqlite_sequence d + 1.
Proof.
  intros d. split; [reflexivity|].
  destruct (store_invariant [op_add 1 2 "10.png" "a"; op_delete 1])
    as [_ Hnext].
  apply (Hnext 3 4 "11.png" "b" (AddNote d 3 4 "11.png" "b").1). reflexivity.
Defined.

(** X5. [DeleteNote] on an existing id returns no error and removes that row
    and no other: the note can no longer be read, every other id reads as
    before, the table has one row less, and deleting the same id again
    fails with "no note found". *)
Theorem DeleteNote_existing_id (d : DB) (id : Z) (row : Row) :
  notes d !! id = Some row →
  let d' := (DeleteNote d id).1 in
  DeleteNote d id = (mkDB (delete id (notes d)) (sqlite_sequence d), None) ∧
  GetNoteByID d' id = Err (no_note_found id) ∧
  (∀ k, k ≠ id → GetNoteByID d' k = GetNoteByID d k) ∧
  DeleteNote d' id = (d', Some (no_note_found id)) ∧
  size (notes d) = S (size (notes d')).
Proof.
  intros Hid d'. subst d'. rewrite (DeleteNote_present _ _ row) by done. simpl.
  split; [done|]. split; [|split; [|split]].
  - apply GetNoteByID_absent. simpl. apply lookup_delete_eq.
  - intros k Hk. unfold GetNoteByID, query_row_scan. simpl.
    by rewrite lookup_delete_ne.
  - apply DeleteNote_absent. simpl. apply lookup_delete_eq.
  - rewrite map_size_delete, Hid. simpl.
    assert (size (notes d) ≠ 0%nat); [|lia].
    intros Hz. apply map_size_empty_inv in Hz. by rewrite Hz, lookup_empty in Hid.
Qed.

Lemma DeleteNote_existing_id_witness :
  notes (db one_note) !! 1 = Some (mkRow 1700000000 "10.png" "# Title") ∧
  DeleteNote (db one_note) 1 = (mkDB ∅ 1, None) ∧
  GetNoteByID (DeleteNote (db one_note) 1).1 1 = Err (no_note_found 1).
Proof.
  split; [reflexivity|].
  destruct (DeleteNote_existing_id (db one_note) 1
              (mkRow 1700000000 "10.png" "# Title") eq_refl)
    as (Hdel & Hget & _).
  split; [|exact Hget]. rewrite Hdel. reflexivity.
Defined.

(** X6. [DeleteNote] on an id that matches no row fails with "no note found"
    and returns the table as it was. *)
Theorem DeleteNote_unknown_id (d : DB) (id : Z) :
  notes d !! id = None →
  DeleteNote d id = (d, Some (no_note_found id)).
Proof. apply DeleteNote_absent. Qed.

Lemma DeleteNote_unknown_id_witness :
  notes (db one_note) !! 7 = None ∧
  DeleteNote (db one_note) 7 = (db one_note, Some (no_note_found 7)).
Proof.
  split; [reflexivity|]. apply DeleteNote_unknown_id. reflexivity.
Defined.

(** X7. [GetAllNotes] and [GetNoteByID] agree: a note is in the list exactly
    when reading its id returns that very note.  No id occurs twice in the
    list, and the list is as long as the table has rows. *)
Theorem GetAllNotes_agrees_with_GetNoteByID (d : DB) :
  ∃ l, GetAllNotes d = Ok l ∧
       (∀ note, note ∈ l ↔ GetNoteByID d (ID note) = Ok note) ∧
       NoDup (ID <$> l) ∧
       length l = size (notes d).
Proof.
  eexists. split; [apply GetAllNotes_eq|].
  assert (merge_sort newer (map_to_list (notes d)) ≡ₚ map_to_list (notes d))
    as Hperm by apply merge_sort_Permutation.
  split; [|split].
  - intros note. rewrite Hperm. rewrite list_elem_of_fmap. split.
    + intros ([k row] & -> & Hin). apply elem_of_map_to_list in Hin.
      simpl. by rewrite (GetNoteByID_present _ _ row).
    + intros Hget. apply GetNoteByID_Ok in Hget as (row & Hrow & Hn).
      exists (ID note, row). split; [done|]. by apply elem_of_map_to_list.
  - rewrite <- list_fmap_compose.
    assert (ID ∘ note_of_row = fst) as -> by done.
    rewrite Hperm. apply NoDup_fst_map_to_list.
  - rewrite length_fmap, Hperm. apply length_map_to_list.
Qed.

(** ** The transcription client: what is sent, what fails *)


Section TranscriptionMore.
Context `{Codec}.
Implicit Types (amb : Ambient) (w : World) (client : option Client).

Lemma Convert_unresolved amb client path w :
  resolve amb client = None →
  ConvertImageToMarkdown amb client path w = (w, Err key_not_set).
Proof.
  unfold ConvertImageToMarkdown, resolve.
  destruct client as [c|]; [done|]. by case_decide.
Qed.

Lemma Convert_unreadable amb client path w c :
  resolve amb client = Some c → files w !! path = None →
  ConvertImageToMarkdown amb client path w
  = (w, Err (Wrapf "failed to read image file: " ErrNotExist)).
Proof.
  unfold ConvertImageToMarkdown, resolve, os_ReadFile. intros Hc Hf.
  rewrite Hf. destruct client as [c'|]; [done|]. by case_decide.
Qed.

Lemma Convert_called amb client path w c data :
  resolve amb client = Some c → files w !! path = Some data →
  ConvertImageToMarkdown amb client path w
  = (with_sent w (request_for data :: sent w),
     match endpoint amb c (request_for data) with
     | Err err => Err (Wrapf "ai request failed: " err)
     | Ok resp =>
         match Choices resp with
         | [] => Err (Errorf "no response choices returned")
         | choice :: _ => Ok (Content choice)
         end
     end).
Proof.
  unfold ConvertImageToMarkdown, resolve, os_ReadFile, CreateChatCompletion.
  intros Hc Hf. rewrite Hf. fold (request_for data).
  assert (match client with
          | Some c0 => Ok c0
          | None => if decide (OPENAI_API_KEY amb = "")
                    then Err (Errorf "OPENAI_API_KEY environment variable not set")
                    else Ok (NewClient (OPENAI_API_KEY amb))
          end = Ok c) as ->.
  { destruct client as [c'|]; [by simplify_eq|]. case_decide; by simplify_eq. }
  destruct (endpoint amb c (request_for data)) as [resp|err]; [|done].
  by destruct (Choices resp).
Qed.

(** X8. [ConvertImageToMarkdown] changes nothing in the world but the list
    of outbound calls, and that list grows by at most one request: the one
    built from the bytes of the file.  A request leaves the process exactly
    when a client is available and the file can be read; without a
    credential or without the file nothing is sent. *)
Theorem ConvertImageToMarkdown_outbound (amb : Ambient)
    (client : option Client) (path : string) (w : World) :
  let w' := (ConvertImageToMarkdown amb client path w).1 in
  w' = with_sent w (sent w') ∧
  (sent w' = sent w ∨
   ∃ data, files w !! path = Some data ∧ sent w' = request_for data :: sent w) ∧
  (sent w' ≠ sent w ↔ is_Some (resolve amb client) ∧ is_Some (files w !! path)).
Proof.
  intros w'. subst w'.
  assert (∀ (q : ChatCompletionRequest) l, q :: l ≠ l) as Hcons.
  { intros q l Heq. apply (f_equal length) in Heq. simpl in Heq. lia. }
  destruct (resolve amb client) as [c|] eqn:Hc.
  2:{ rewrite Convert_unresolved by done. simpl. split; [by destruct w|].
      split; [by left|]. split; [done|]. by intros [[? ?] _]. }
  destruct (files w !! path) as [data|] eqn:Hf.
  2:{ rewrite (Convert_unreadable _ _ _ _ c) by done. simpl.
      split; [by destruct w|]. split; [by left|]. split; [done|].
      by intros [_ [? ?]]. }
  rewrite (Convert_called _ _ _ _ c data) by done. simpl.
  split; [done|]. split; [right; by exists data|].
  split; [eauto|]. intros _. apply Hcons.
Qed.

End TranscriptionMore.


(** ** The handlers: each early return *)


Section Returns.
Context `{Codec}.
Implicit Types (amb : Ambient) (r : Request) (w : World) (u : Upload).

(** [run_to_return] runs a handler up to the [return] that the facts
    about the request lead to. *)
Ltac run_to_return :=
  intros;
  unfold AddNoteHandler, UpdateNoteHandler, RegenerateNoteHandler,
    run, FormFile, hbind, call, peek, os_Create, io_Copy, multipart_err_again;
  repeat first
    [ rewrite decide_True by done
    | rewrite decide_False by (done || by intros []) ];
  repeat match goal with
         | Heq : ?lhs = _ |- context [?lhs] => rewrite Heq
         end;
  done.

Lemma AddNoteHandler_not_post amb r w :
  Method r ≠ MethodPost →
  AddNoteHandler amb r w
  = (w, failure "Method not allowed" StatusMethodNotAllowed).
Proof. run_to_return. Qed.

Lemma AddNoteHandler_bad_form amb r w e :
  Method r = MethodPost → multipart_err r = Some e →
  AddNoteHandler amb r w = (w, failure "Failed to parse form" StatusBadRequest).
Proof. run_to_return. Qed.

Lemma AddNoteHandler_no_image amb r w :
  Method r = MethodPost → multipart_err r = None →
  MultipartFiles r !! "image" = None →
  AddNoteHandler amb r w
  = (w, failure "No image file provided" StatusBadRequest).
Proof. run_to_return. Qed.

Lemma AddNoteHandler_create_failed amb r w u e :
  Method r = MethodPost → multipart_err r = None →
  MultipartFiles r !! "image" = Some u → create_err amb = Some e →
  AddNoteHandler amb r w
  = (w, failure "Failed to save image" StatusInternalServerError).
Proof. run_to_return. Qed.

Lemma AddNoteHandler_copy_failed amb r w u n e :
  Method r = MethodPost → multipart_err r = None →
  MultipartFiles r !! "image" = Some u → create_err amb = None →
  copy_err amb = Some (n, e) →
  AddNoteHandler amb r w
  = (with_files w (<[image_path u := take n (content u)]> (files w)),
     failure "Failed to save image" StatusInternalServerError).
Proof.
  intros Hm Hp Hf Hc Hcp.
  unfold AddNoteHandler, run, FormFile, hbind, call, os_Create, io_Copy.
  rewrite Hm, Hp, Hf, Hc, Hcp. simpl. fold (image_path u).
  unfold with_files. simpl. by rewrite insert_insert_eq.
Qed.

Lemma UpdateNoteHandler_not_post amb r w :
  Method r ≠ MethodPost →
  UpdateNoteHandler amb r w
  = (w, failure "Method not allowed" StatusMethodNotAllowed).
Proof. run_to_return. Qed.

Lemma UpdateNoteHandler_no_id amb r w :
  Method r = MethodPost → FormValue r "id" = "" →
  UpdateNoteHandler amb r w = (w, failure "Note ID required" StatusBadRequest).
Proof. run_to_return. Qed.

Lemma UpdateNoteHandler_bad_id amb r w :
  Method r = MethodPost → FormValue r "id" ≠ "" →
  Atoi (FormValue r "id") = None →
  UpdateNoteHandler amb r w = (w, failure "Invalid note ID" StatusBadRequest).
Proof. run_to_return. Qed.

Lemma UpdateNoteHandler_bad_form amb r w id e :
  Method r = MethodPost → Atoi (FormValue r "id") = Some id →
  body_err r = Some e →
  UpdateNoteHandler amb r w = (w, failure "Failed to parse form" StatusBadRequest).
Proof.
  intros Hm Hid Hp.
  assert (FormValue r "id" ≠ "") by (intros Heq; by rewrite Heq in Hid).
  run_to_return.
Qed.

Lemma UpdateNoteHandler_no_image amb r w id :
  Method r = MethodPost → Atoi (FormValue r "id") = Some id →
  body_err r = None → MultipartFiles r !! "image" = None →
  UpdateNoteHandler amb r w
  = (w, failure "No image file provided" StatusBadRequest).
Proof.
  intros Hm Hid Hp Hf.
  assert (FormValue r "id" ≠ "") by (intros Heq; by rewrite Heq in Hid).
  run_to_return.
Qed.

Lemma UpdateNoteHandler_create_failed amb r w id u e :
  Method r = MethodPost → Atoi (FormValue r "id") = Some id →
  body_err r = None → MultipartFiles r !! "image" = Some u →
  create_err amb = Some e →
  UpdateNoteHandler amb r w
  = (w, failure "Failed to save image" StatusInternalServerError).
Proof.
  intros Hm Hid Hp Hf Hc.
  assert (FormValue r "id" ≠ "") by (intros Heq; by rewrite Heq in Hid).
  run_to_return.
Qed.

Lemma UpdateNoteHandler_copy_failed amb r w id u n e :
  Method r = MethodPost → Atoi (FormValue r "id") = Some id →
  body_err r = None → MultipartFiles r !! "image" = Some u →
  create_err amb = None → copy_err amb = Some (n, e) →
  UpdateNoteHandler amb r w
  = (with_files w (<[image_path u := take n (content u)]> (files w)),
     failure "Failed to save image" StatusInternalServerError).
Proof.
  intros Hm Hid Hp Hf Hc Hcp.
  unfold UpdateNoteHandler, run, FormFile, hbind, call, os_Create, io_Copy,
    multipart_err_again.
  rewrite Hm, Hid, Hp, Hf, Hc, Hcp. simpl.
  rewrite decide_False by (intros Heq; by rewrite Heq in Hid).
  fold (image_path u). unfold with_files. simpl. by rewrite insert_insert_eq.
Qed.

Lemma RegenerateNoteHandler_not_post amb r w :
  Method r ≠ MethodPost →
  RegenerateNoteHandler amb r w
  = (w, failure "Method not allowed" StatusMethodNotAllowed).
Proof. run_to_return. Qed.

Lemma RegenerateNoteHandler_no_id amb r w :
  Method r = MethodPost → FormValue r "id" = "" →
  RegenerateNoteHandler amb r w
  = (w, failure "Note ID required" StatusBadRequest).
Proof. run_to_return. Qed.

Lemma RegenerateNoteHandler_bad_id amb r w :
  Method r = MethodPost → FormValue r "id" ≠ "" →
  Atoi (FormValue r "id") = None →
  RegenerateNoteHandler amb r w
  = (w, failure "Invalid note ID" StatusBadRequest).
Proof. run_to_return. Qed.
End Returns.

(** ** The handlers: which status, and when *)

Section Statuses.
Context `{Codec}.
Implicit Types (amb : Ambient) (r : Request) (w : World) (u : Upload).

(** [settle] decides a statement about the status of a given answer. *)
Ltac settle :=
  simpl;
  unfold StatusOK, StatusBadRequest, StatusNotFound, StatusMethodNotAllowed,
    StatusInternalServerError in *;
  repeat split; intros;
  repeat match goal with
         | Hx : _ ∧ _ |- _ => destruct Hx
         | Hx : _ ∨ _ |- _ => destruct Hx
         | Hx : ∃ _, _ |- _ => destruct Hx
         | Hx : is_Some None |- _ => by destruct Hx
         end;
  simplify_eq; eauto 10; try done; try lia.

(** X10. [/api/add-note] answers 405 exactly when the method is not POST,
    and 400 exactly when the method is POST and the form does not parse or
    has no image part.  With either status the world is untouched.  Its
    status is always one of 200, 400, 405 and 500: never 404. *)
Theorem AddNoteHandler_statuses amb r w :
  let out := AddNoteHandler amb r w in
  (StatusCode out.2 = StatusMethodNotAllowed ↔ Method r ≠ MethodPost) ∧
  (StatusCode out.2 = StatusBadRequest ↔
   Method r = MethodPost ∧
   (is_Some (multipart_err r) ∨ MultipartFiles r !! "image" = None)) ∧
  (StatusCode out.2 = StatusMethodNotAllowed ∨
   StatusCode out.2 = StatusBadRequest → out.1 = w) ∧
  (StatusCode out.2 = StatusOK ∨ StatusCode out.2 = StatusBadRequest ∨
   StatusCode out.2 = StatusMethodNotAllowed ∨
   StatusCode out.2 = StatusInternalServerError).
Proof.
  intros out. subst out.
  destruct (decide (Method r = MethodPost)) as [Hm|Hm].
  2:{ rewrite AddNoteHandler_not_post by done. settle. }
  destruct (multipart_err r) as [e|] eqn:Hp.
  { rewrite (AddNoteHandler_bad_form _ _ _ e) by done. settle. }
  destruct (MultipartFiles r !! "image") as [u|] eqn:Hf.
  2:{ rewrite AddNoteHandler_no_image by done. settle. }
  destruct (create_err amb) as [e|] eqn:Hc.
  { rewrite (AddNoteHandler_create_failed _ _ _ u e) by done. settle. }
  destruct (copy_err amb) as [[n e]|] eqn:Hcp.
  { rewrite (AddNoteHandler_copy_failed _ _ _ u n e) by done. settle. }
  rewrite (AddNoteHandler_saved _ _ _ u) by done.
  destruct (ConvertImageToMarkdown _ _ _ _) as [w2 [text|err]]; [|settle].
  destruct (AddNote _ _ _ _ _) as [d [note|err]]; settle.
Qed.

(** X11. [/api/update-note] answers 405 exactly when the method is not POST,
    and 400 exactly when the method is POST and the id is missing or not an
    integer, the multipart body could not be read, or there is no image
    part.  A malformed query alone is no reason for a 400: [r.FormValue]
    has parsed the form and dropped that error before
    [r.ParseMultipartForm] is called.  The id is checked first: a missing or
    malformed id is reported as such whatever else is wrong.  With either
    status the world is untouched, and the status is always one of 200, 400,
    405 and 500: never 404. *)
Theorem UpdateNoteHandler_statuses amb r w :
  let out := UpdateNoteHandler amb r w in
  (StatusCode out.2 = StatusMethodNotAllowed ↔ Method r ≠ MethodPost) ∧
  (StatusCode out.2 = StatusBadRequest ↔
   Method r = MethodPost ∧
   (Atoi (FormValue r "id") = None ∨ is_Some (body_err r) ∨
    MultipartFiles r !! "image" = None)) ∧
  (Method r = MethodPost → Atoi (FormValue r "id") = None →
   Body out.2 = (if decide (FormValue r "id" = "") then "Note ID required"
                 else "Invalid note ID") +:+ String newline "") ∧
  (StatusCode out.2 = StatusMethodNotAllowed ∨
   StatusCode out.2 = StatusBadRequest → out.1 = w) ∧
  (StatusCode out.2 = StatusOK ∨ StatusCode out.2 = StatusBadRequest ∨
   StatusCode out.2 = StatusMethodNotAllowed ∨
   StatusCode out.2 = StatusInternalServerError).
Proof.
  intros out. subst out.
  destruct (decide (Method r = MethodPost)) as [Hm|Hm].
  2:{ rewrite UpdateNoteHandler_not_post by done. settle. }
  destruct (decide (FormValue r "id" = "")) as [He|He].
  { rewrite UpdateNoteHandler_no_id by done.
    assert (Atoi (FormValue r "id") = None) by (by rewrite He). settle. }
  destruct (Atoi (FormValue r "id")) as [id|] eqn:Hid.
  2:{ rewrite UpdateNoteHandler_bad_id by done. settle. }
  destruct (body_err r) as [e|] eqn:Hp.
  { rewrite (UpdateNoteHandler_bad_form _ _ _ id e) by done. settle. }
  destruct (MultipartFiles r !! "image") as [u|] eqn:Hf.
  2:{ rewrite (UpdateNoteHandler_no_image _ _ _ id) by done. settle. }
  destruct (create_err amb) as [e|] eqn:Hc.
  { rewrite (UpdateNoteHandler_create_failed _ _ _ id u e) by done. settle. }
  destruct (copy_err amb) as [[n e]|] eqn:Hcp.
  { rewrite (UpdateNoteHandler_copy_failed _ _ _ id u n e) by done. settle. }
  rewrite (UpdateNoteHandler_saved _ _ _ u id) by done.
  destruct (ConvertImageToMarkdown _ _ _ _) as [w2 [text|err]]; [|settle].
  destruct (UpdateNote _ _ _ _) as [d [note|err]]; settle.
Qed.

(** X13. A request to [/api/update-note] or [/api/regenerate-note] that is
    not answered with 200 leaves the table as it was; a failed
    [/api/regenerate-note] leaves the files as they were too. *)
Theorem failed_request_keeps_table amb r w :
  (StatusCode (UpdateNoteHandler amb r w).2 ≠ StatusOK →
   db (UpdateNoteHandler amb r w).1 = db w) ∧
  (StatusCode (RegenerateNoteHandler amb r w).2 ≠ StatusOK →
   db (RegenerateNoteHandler amb r w).1 = db w ∧
   files (RegenerateNoteHandler amb r w).1 = files w).
Proof.
  split.
  - destruct (UpdateNoteHandler_early amb r w)
      as [(u & id & Hu & Hid)|(Hdb & _)]; [|done].
    rewrite (UpdateNoteHandler_saved _ _ _ u id) by auto.
    destruct (ConvertImageToMarkdown _ _ _ _) as [w2 [text|err]] eqn:Hconv;
      apply Convert_frame_eq in Hconv as (Hdb & _); [|done].
    destruct (UpdateNote _ _ _ _) as [d [note|err]] eqn:Hupd; [done|].
    intros _. apply UpdateNote_Err in Hupd as ->. done.
  - destruct (RegenerateNoteHandler_early amb r w)
      as [(id & Hm & Hid & Hp)|(-> & _)]; [|done].
    rewrite (RegenerateNoteHandler_parsed _ _ _ id) by done.
    destruct (GetNoteByID _ _) as [note|err]; [|done]. simpl.
    destruct (os_IsNotExist _); [done|].
    destruct (ConvertImageToMarkdown _ _ _ _) as [w2 [text|err]] eqn:Hconv;
      apply Convert_frame_eq in Hconv as (Hdb & Hfiles & _); [|done].
    destruct (UpdateNote _ _ _ _) as [d [updated|err]] eqn:Hupd; [done|].
    intros _. apply UpdateNote_Err in Hupd as ->. done.
Qed.
End Statuses.

Lemma AddNoteHandler_statuses_witness :
  let r := mkReq "GET" ∅ ∅ None None in
  Method r ≠ MethodPost ∧
  StatusCode (AddNoteHandler (H := test_codec) (quiet []) r one_note).2
  = StatusMethodNotAllowed.
Proof.
  intros r. split; [discriminate|].
  apply (AddNoteHandler_statuses (H := test_codec) (quiet []) r one_note).
  discriminate.
Defined.

Lemma UpdateNoteHandler_statuses_witness :
  let r := post "seven" (Some (png "a.png" ten_bytes)) in
  Method r = MethodPost ∧ Atoi (FormValue r "id") = None ∧
  StatusCode (UpdateNoteHandler (H := test_codec) (quiet ["# Title"]) r
                one_note).2 = StatusBadRequest.
Proof.
  intros r. split; [reflexivity|]. split; [reflexivity|].
  apply (UpdateNoteHandler_statuses (H := test_codec) (quiet ["# Title"]) r
           one_note).
  split; [reflexivity|]. left. reflexivity.
Defined.

Lemma failed_request_keeps_table_witness :
  let r := post "1" None in
  StatusCode (RegenerateNoteHandler (H := test_codec) (quiet []) r one_note).2
  ≠ StatusOK ∧
  db (RegenerateNoteHandler (H := test_codec) (quiet []) r one_note).1
  = db one_note.
Proof.
  intros r. split; [discriminate|].
  apply (failed_request_keeps_table (H := test_codec) (quiet []) r one_note).
  discriminate.
Defined.

(** ** The handlers: what a request leaves behind *)

Section Outcomes.
Context `{Codec}.
Implicit Types (amb : Ambient) (r : Request) (w : World) (u : Upload).

Lemma Convert_saved amb w u c :
  resolve amb (aiClient w) = Some c →
  ConvertImageToMarkdown amb (aiClient w) (image_path u) (saved w u)
  = (with_sent (saved w u) (request_for (content u) :: sent w),
     match endpoint amb c (request_for (content u)) with
     | Err err => Err (Wrapf "ai request failed: " err)
     | Ok resp =>
         match Choices resp with
         | [] => Err (Errorf "no response choices returned")
         | choice :: _ => Ok (Content choice)
         end
     end).
Proof.
  intros Hc.
  rewrite (Convert_called _ _ _ _ c (content u)); [done|done|].
  simpl. apply lookup_insert_eq.
Qed.

Lemma AddNoteHandler_ok amb r w u c choice rest :
  reaches_disk amb r u →
  resolve amb (aiClient w) = Some c →
  endpoint amb c (request_for (content u)) = Ok (mkResponse (choice :: rest)) →
  let id := Z.max (sqlite_sequence (db w)) (max_rowid (notes (db w))) + 1 in
  id ≤ maxInt64 →
  AddNoteHandler amb r w
  = (mkWorld
       (mkDB (<[id := mkRow (CURRENT_TIMESTAMP amb)
                        (stored_filename (header u)) (Content choice)]>
                (notes (db w))) id)
       (aiClient w)
       (<[image_path u := content u]> (files w))
       (request_for (content u) :: sent w),
     success (mkNote id (time_Now amb) (stored_filename (header u))
                (Content choice))).
Proof.
  intros Hu Hc He id Hid. subst id.
  rewrite (AddNoteHandler_saved _ _ _ u), (Convert_saved _ _ _ c), He by done.
  simpl. unfold AddNote, exec_insert, LastInsertId. simpl.
  rewrite decide_True by lia. done.
Qed.

(** X14. [/api/add-note] with an image, a client and an answer of at least
    one choice, while ids are left: the answer is 200 with a new id, the
    stored name and the content of the first choice; the table gains that
    one row, under an id that was free; the upload is written under its
    stored name; one request is sent.  The stored note reads back with the
    timestamp of the database. *)
Theorem AddNoteHandler_success amb r w u c choice rest :
  reaches_disk amb r u →
  resolve amb (aiClient w) = Some c →
  endpoint amb c (request_for (content u)) = Ok (mkResponse (choice :: rest)) →
  let id := Z.max (sqlite_sequence (db w)) (max_rowid (notes (db w))) + 1 in
  id ≤ maxInt64 →
  let out := AddNoteHandler amb r w in
  out
  = (mkWorld
       (mkDB (<[id := mkRow (CURRENT_TIMESTAMP amb)
                        (stored_filename (header u)) (Content choice)]>
                (notes (db w))) id)
       (aiClient w)
       (<[image_path u := content u]> (files w))
       (request_for (content u) :: sent w),
     success (mkNote id (time_Now amb) (stored_filename (header u))
                (Content choice))) ∧
  notes (db w) !! id = None ∧
  GetNoteByID (db out.1) id
  = Ok (mkNote id (CURRENT_TIMESTAMP amb) (stored_filename (header u))
          (Content choice)).
Proof.
  intros Hu Hc He id Hid out. subst out.
  rewrite (AddNoteHandler_ok _ _ _ u c choice rest) by done.
  split; [done|]. split.
  - pose proof (max_rowid_bound (notes (db w))) as [_ Hall].
    destruct (notes (db w) !! id) as [row|] eqn:Hrow; [|done].
    specialize (Hall id (mk_is_Some _ _ Hrow)). subst id. lia.
  - simpl. rewrite (GetNoteByID_present _ _
                      (mkRow (CURRENT_TIMESTAMP amb)
                         (stored_filename (header u)) (Content choice)));
      [done|]. simpl. apply lookup_insert_eq.
Qed.

(** X15. [/api/update-note] with an image, an existing id and an answer of
    at least one choice: the answer is 200 with the id, the new stored name
    and the content of the first choice; the row keeps its creation date and
    gets the new name and markdown; the upload is written under its stored
    name and one request is sent.  The file of the previous image is not
    removed: unless it has the same path, it is still there. *)
Theorem UpdateNoteHandler_success amb r w u id row c choice rest :
  reaches_disk amb r u →
  Atoi (FormValue r "id") = Some id →
  notes (db w) !! id = Some row →
  resolve amb (aiClient w) = Some c →
  endpoint amb c (request_for (content u)) = Ok (mkResponse (choice :: rest)) →
  UpdateNoteHandler amb r w
  = (mkWorld
       (mkDB (<[id := mkRow (date_created row) (stored_filename (header u))
                        (Content choice)]> (notes (db w)))
             (sqlite_sequence (db w)))
       (aiClient w)
       (<[image_path u := content u]> (files w))
       (request_for (content u) :: sent w),
     success (mkNote id (date_created row) (stored_filename (header u))
                (Content choice))) ∧
  (Join "./images" (image row) ≠ image_path u →
   files (UpdateNoteHandler amb r w).1 !! Join "./images" (image row)
   = files w !! Join "./images" (image row)).
Proof.
  intros Hu Hid Hrow Hc He.
  rewrite (UpdateNoteHandler_saved _ _ _ u id), (Convert_saved _ _ _ c), He
    by auto.
  simpl. rewrite (UpdateNote_present _ _ _ _ row) by done. simpl.
  split; [done|]. intros Hne. by rewrite lookup_insert_ne.
Qed.

Lemma RegenerateNoteHandler_ok amb r w id row data c choice rest :
  Method r = MethodPost →
  Atoi (FormValue r "id") = Some id →
  form_err r = None →
  notes (db w) !! id = Some row →
  files w !! Join "./images" (image row) = Some data →
  resolve amb (aiClient w) = Some c →
  endpoint amb c (request_for data) = Ok (mkResponse (choice :: rest)) →
  RegenerateNoteHandler amb r w
  = (mkWorld
       (mkDB (<[id := mkRow (date_created row) (image row) (Content choice)]>
                (notes (db w)))
             (sqlite_sequence (db w)))
       (aiClient w) (files w) (request_for data :: sent w),
     success (mkNote id (date_created row) (image row) (Content choice))).
Proof.
  intros Hm Hid Hp Hrow Hfile Hc He.
  rewrite (RegenerateNoteHandler_parsed _ _ _ id) by done.
  rewrite (GetNoteByID_present _ _ row) by done. simpl.
  assert (os_IsNotExist (os_Stat amb (Join "./images" (image row)) w) = false)
    as -> by (unfold os_Stat; rewrite Hfile; by destruct (stat_err amb)).
  rewrite (Convert_called _ _ _ _ c data), He by done. simpl.
  by rewrite (UpdateNote_present _ _ _ _ row).
Qed.

(** X16. [/api/regenerate-note] with an existing id, the image file in
    place and an answer of at least one choice: the answer is 200; the
    request that is sent carries the stored bytes of that file; the row
    keeps id, creation date and image and gets the content of the first
    choice as markdown; no file and no other row changes. *)
Theorem RegenerateNoteHandler_success amb r w id row data c choice rest :
  Method r = MethodPost →
  Atoi (FormValue r "id") = Some id →
  form_err r = None →
  notes (db w) !! id = Some row →
  files w !! Join "./images" (image row) = Some data →
  resolve amb (aiClient w) = Some c →
  endpoint amb c (request_for data) = Ok (mkResponse (choice :: rest)) →
  let out := RegenerateNoteHandler amb r w in
  out.2 = success (mkNote id (date_created row) (image row) (Content choice)) ∧
  sent out.1 = request_for data :: sent w ∧
  files out.1 = files w ∧
  GetNoteByID (db out.1) id
  = Ok (mkNote id (date_created row) (image row) (Content choice)) ∧
  (∀ k, k ≠ id → notes (db out.1) !! k = notes (db w) !! k).
Proof.
  intros Hm Hid Hp Hrow Hfile Hc He out. subst out.
  rewrite (RegenerateNoteHandler_ok _ _ _ id row data c choice rest) by done.
  simpl. repeat split.
  - rewrite (GetNoteByID_present _ _
               (mkRow (date_created row) (image row) (Content choice)));
      [done|]. simpl. apply lookup_insert_eq.
  - intros k Hk. by rewrite lookup_insert_ne.
Qed.

(** X17. [/api/update-note] looks for the note last.  With an id that
    matches no note the answer is 500 and the table is unchanged, but the
    upload has been written under its stored name, replacing what was there,
    and a transcription request has been sent. *)
Theorem UpdateNoteHandler_unknown_id_effects amb r w u id c :
  reaches_disk amb r u →
  Atoi (FormValue r "id") = Some id →
  notes (db w) !! id = None →
  resolve amb (aiClient w) = Some c →
  let out := UpdateNoteHandler amb r w in
  StatusCode out.2 = StatusInternalServerError ∧
  out.1 = mkWorld (db w) (aiClient w)
            (<[image_path u := content u]> (files w))
            (request_for (content u) :: sent w).
Proof.
  intros Hu Hid Hnone Hc out. subst out.
  rewrite (UpdateNoteHandler_saved _ _ _ u id), (Convert_saved _ _ _ c) by auto.
  destruct (endpoint amb c (request_for (content u))) as [[chs]|err]; [|done].
  destruct chs as [|choice rest]; [done|]. simpl.
  rewrite UpdateNote_absent by done. simpl. split; [done|]. by destruct w.
Qed.

(** X18. Nothing is rolled back: once the upload of [/api/add-note] or
    [/api/update-note] is on disk, a request that then fails leaves the
    file there, with the bytes of the upload, and the table unchanged. *)
Theorem failed_upload_stays amb r w u :
  reaches_disk amb r u →
  (StatusCode (AddNoteHandler amb r w).2 ≠ StatusOK →
   files (AddNoteHandler amb r w).1 !! image_path u = Some (content u) ∧
   db (AddNoteHandler amb r w).1 = db w) ∧
  (∀ id, Atoi (FormValue r "id") = Some id →
     StatusCode (UpdateNoteHandler amb r w).2 ≠ StatusOK →
     files (UpdateNoteHandler amb r w).1 !! image_path u = Some (content u) ∧
     db (UpdateNoteHandler amb r w).1 = db w).
Proof.
  intros Hu. split.
  - rewrite (AddNoteHandler_files _ _ _ u) by done.
    rewrite lookup_insert_eq. intros Hst. split; [done|].
    revert Hst. rewrite (AddNoteHandler_saved _ _ _ u) by done.
    destruct (ConvertImageToMarkdown _ _ _ _) as [w2 [text|err]] eqn:Hconv;
      apply Convert_frame_eq in Hconv as (Hdb & _); [|done].
    destruct (AddNote _ _ _ _ _) as [d [note|err]] eqn:Hadd; [done|].
    intros _. by apply AddNote_Err in Hadd as ->.
  - intros id Hid. rewrite (UpdateNoteHandler_files _ _ _ u id) by auto.
    rewrite lookup_insert_eq. intros Hst. split; [done|].
    revert Hst. rewrite (UpdateNoteHandler_saved _ _ _ u id) by auto.
    destruct (ConvertImageToMarkdown _ _ _ _) as [w2 [text|err]] eqn:Hconv;
      apply Convert_frame_eq in Hconv as (Hdb & _); [|done].
    destruct (UpdateNote _ _ _ _) as [d [note|err]] eqn:Hupd; [done|].
    intros _. by apply UpdateNote_Err in Hupd as ->.
Qed.

(** X19. When the image cannot be saved, [/api/add-note] and
    [/api/update-note] answer 500 "Failed to save image" without sending a
    transcription request or touching the table.  If [os.Create] fails the
    world is unchanged; if [io.Copy] fails after [n] bytes, the file is left
    behind with those [n] bytes. *)
Theorem save_failure amb r w u :
  Method r = MethodPost → multipart_err r = None →
  MultipartFiles r !! "image" = Some u →
  (∀ e, create_err amb = Some e →
     AddNoteHandler amb r w
     = (w, failure "Failed to save image" StatusInternalServerError) ∧
     (∀ id, Atoi (FormValue r "id") = Some id →
        UpdateNoteHandler amb r w
        = (w, failure "Failed to save image" StatusInternalServerError))) ∧
  (∀ n e, create_err amb = None → copy_err amb = Some (n, e) →
     let left_behind :=
       with_files w (<[image_path u := take n (content u)]> (files w)) in
     AddNoteHandler amb r w
     = (left_behind, failure "Failed to save image" StatusInternalServerError) ∧
     (∀ id, Atoi (FormValue r "id") = Some id →
        UpdateNoteHandler amb r w
        = (left_behind,
           failure "Failed to save image" StatusInternalServerError))).
Proof.
  intros Hm Hp Hf.
  assert (body_err r = None) as Hb.
  { unfold multipart_err in Hp. by destruct (body_err r). }
  split.
  - intros e Hc. split.
    + by apply (AddNoteHandler_create_failed _ _ _ u e).
    + intros id Hid. by apply (UpdateNoteHandler_create_failed _ _ _ id u e).
  - intros n e Hc Hcp left_behind. split.
    + by apply (AddNoteHandler_copy_failed _ _ _ u n e).
    + intros id Hid. by apply (UpdateNoteHandler_copy_failed _ _ _ id u n e).
Qed.
End Outcomes.

Lemma AddNoteHandler_success_witness :
  let r := post "" (Some (png "b.jpg" ten_other_bytes)) in
  let out := AddNoteHandler (H := test_codec) (quiet ["# Two"; "other"]) r
               one_note in
  reaches_disk (quiet ["# Two"; "other"]) r (png "b.jpg" ten_other_bytes) ∧
  out.2 = success (mkNote 2 1700000001 "10.jpg" "# Two") ∧
  GetNoteByID (db out.1) 2 = Ok (mkNote 2 1700000000 "10.jpg" "# Two").
Proof.
  intros r out.
  assert (reaches_disk (quiet ["# Two"; "other"]) r
            (png "b.jpg" ten_other_bytes)) as Hu
    by (repeat split; reflexivity).
  split; [exact Hu|].
  destruct (AddNoteHandler_success (H := test_codec)
              (quiet ["# Two"; "other"]) r one_note
              (png "b.jpg" ten_other_bytes) gemini (mkChoice "# Two")
              [mkChoice "other"] Hu eq_refl eq_refl)
    as (Hout & _ & Hget); [by vm_compute|].
  split; [|exact Hget]. subst out. rewrite Hout. reflexivity.
Defined.

Lemma UpdateNoteHandler_success_witness :
  let r := post "1" (Some (png "b.jpg" ten_other_bytes)) in
  let out := UpdateNoteHandler (H := test_codec) (quiet ["# Two"]) r
               one_note in
  reaches_disk (quiet ["# Two"]) r (png "b.jpg" ten_other_bytes) ∧
  out.2 = success (mkNote 1 1700000000 "10.jpg" "# Two") ∧
  files out.1 !! "images/10.png" = Some ten_bytes.
Proof.
  intros r out.
  assert (reaches_disk (quiet ["# Two"]) r (png "b.jpg" ten_other_bytes))
    as Hu by (repeat split; reflexivity).
  split; [exact Hu|].
  destruct (UpdateNoteHandler_success (H := test_codec) (quiet ["# Two"]) r
              one_note (png "b.jpg" ten_other_bytes) 1
              (mkRow 1700000000 "10.png" "# Title") gemini (mkChoice "# Two")
              [] Hu eq_refl eq_refl eq_refl eq_refl) as [Hout Hold].
  split; [subst out; rewrite Hout; reflexivity|].
  apply Hold. discriminate.
Defined.

Lemma RegenerateNoteHandler_success_witness :
  let out := RegenerateNoteHandler (H := test_codec) (quiet ["# Again"])
               (post "1" None) one_note in
  out.2 = success (mkNote 1 1700000000 "10.png" "# Again") ∧
  sent out.1 = request_for (H := test_codec) ten_bytes :: sent one_note.
Proof.
  intros out.
  destruct (RegenerateNoteHandler_success (H := test_codec)
              (quiet ["# Again"]) (post "1" None) one_note 1
              (mkRow 1700000000 "10.png" "# Title") ten_bytes gemini
              (mkChoice "# Again") [] eq_refl eq_refl eq_refl eq_refl
              eq_refl eq_refl eq_refl) as (Hout & Hsent & _).
  split; [exact Hout|exact Hsent].
Defined.

Lemma UpdateNoteHandler_unknown_id_effects_witness :
  let r := post "7" (Some (png "b.png" ten_other_bytes)) in
  let out := UpdateNoteHandler (H := test_codec) (quiet ["# Two"]) r
               one_note in
  notes (db one_note) !! 7 = None ∧
  StatusCode out.2 = StatusInternalServerError ∧
  files out.1 !! "images/10.png" = Some ten_other_bytes ∧
  length (sent out.1) = S (length (sent one_note)).
Proof.
  intros r out. split; [reflexivity|].
  assert (reaches_disk (quiet ["# Two"]) r (png "b.png" ten_other_bytes))
    as Hu by (repeat split; reflexivity).
  destruct (UpdateNoteHandler_unknown_id_effects (H := test_codec)
              (quiet ["# Two"]) r one_note (png "b.png" ten_other_bytes) 7
              gemini Hu eq_refl eq_refl eq_refl) as [Hst Hw].
  split; [exact Hst|]. subst out. rewrite Hw. split; reflexivity.
Defined.

Lemma failed_upload_stays_witness :
  let r := post "" (Some (png "b.png" ten_other_bytes)) in
  let out := AddNoteHandler (H := test_codec) (quiet []) r one_note in
  StatusCode out.2 ≠ StatusOK ∧
  files out.1 !! "images/10.png" = Some ten_other_bytes ∧
  db out.1 = db one_note.
Proof.
  intros r out. split; [discriminate|].
  assert (reaches_disk (quiet []) r (png "b.png" ten_other_bytes)) as Hu
    by (repeat split; reflexivity).
  destruct (failed_upload_stays (H := test_codec) (quiet []) r one_note
              (png "b.png" ten_other_bytes) Hu) as [Hadd _].
  apply Hadd. discriminate.
Defined.

Lemma save_failure_witness :
  let amb := mkAmbient 1700000000 1700000001 None
               (Some (4%nat, External "unexpected EOF")) "" (answers ["x"]) in
  let r := post "" (Some (png "b.png" ten_other_bytes)) in
  let out := AddNoteHandler (H := test_codec) amb r one_note in
  StatusCode out.2 = StatusInternalServerError ∧
  files out.1 !! "images/10.png" = Some (replicate 4 Byte.x42) ∧
  sent out.1 = sent one_note.
Proof.
  intros amb r out.
  destruct (save_failure (H := test_codec) amb r one_note
              (png "b.png" ten_other_bytes) eq_refl eq_refl eq_refl)
    as [_ Hcopy].
  destruct (Hcopy 4%nat (External "unexpected EOF") eq_refl eq_refl)
    as [Hout _].
  subst out. rewrite Hout. repeat split; reflexivity.
Defined.

(** ** Decimal ids and stored names *)


Lemma str_app_cons (x : ascii) (a b : string) :
  String x a +:+ b = String x (a +:+ b).
Proof. reflexivity. Qed.

Lemma str_app_assoc (a b c : string) : (a +:+ b) +:+ c = a +:+ b +:+ c.
Proof. induction a as [|x a IH]; [done|]. by rewrite !str_app_cons, IH. Qed.

Lemma str_app_nil_r (a : string) : a +:+ "" = a.
Proof. induction a as [|x a IH]; [done|]. by rewrite str_app_cons, IH. Qed.

Lemma chars_app (a b : string) : chars (a +:+ b) = chars a ++ chars b.
Proof.
  induction a as [|c a IH]; [done|].
  rewrite str_app_cons. unfold chars in *. simpl. by rewrite IH.
Qed.

Lemma str_app_nonempty (a : string) (x : ascii) : a +:+ String x "" ≠ "".
Proof. by destruct a. Qed.

Lemma digit_of_pretty_N_char (m : N) :
  (m < 10)%N → digit_of (pretty_N_char m) = Some (Z.of_N m).
Proof.
  intros Hm.
  assert (m = 0 ∨ m = 1 ∨ m = 2 ∨ m = 3 ∨ m = 4 ∨ m = 5 ∨ m = 6 ∨ m = 7
          ∨ m = 8 ∨ m = 9)%N as Hcases by lia.
  repeat (destruct Hcases as [->|Hcases]; [reflexivity|]). by subst m.
Qed.

Lemma is_digit_pretty_N_char (m : N) : is_digit (pretty_N_char m) = true.
Proof. unfold pretty_N_char. by repeat case_match. Qed.

(** [pretty_N_go x s] writes the decimal digits of [x] in front of [s], and
    [atoi_digits] reads them back. *)
Lemma pretty_N_go_digits (x : N) :
  ∃ pre (k : Z),
    0 ≤ k ∧
    (∀ s, pretty_N_go x s = pre +:+ s) ∧
    (∀ c, c ∈ chars pre → is_digit c = true) ∧
    ((0 < x)%N → pre ≠ "") ∧
    (∀ s n, atoi_digits (pre +:+ s) n = atoi_digits s (n * 10 ^ k + Z.of_N x)).
Proof.
  induction (N.lt_wf_0 x) as [x _ IH].
  destruct (decide (x = 0)%N) as [->|Hx].
  { exists "", 0. split; [done|]. split; [done|]. split.
    - intros c Hc. by apply elem_of_nil in Hc.
    - split; [lia|]. intros s n. simpl. f_equal. lia. }
  assert (0 < x)%N as Hpos by lia.
  destruct (IH (x `div` 10)%N) as (pre & k & Hk & Hgo & Hdig & Hne & Hatoi).
  { by apply N.div_lt. }
  exists (pre +:+ String (pretty_N_char (x `mod` 10)) ""), (k + 1).
  split; [lia|]. split; [|split; [|split]].
  - intros s. rewrite pretty_N_go_step, Hgo by done.
    by rewrite str_app_assoc.
  - intros c. rewrite chars_app, elem_of_app. intros [Hc|Hc]; [by apply Hdig|].
    apply list_elem_of_singleton in Hc as ->. apply is_digit_pretty_N_char.
  - intros _. apply str_app_nonempty.
  - intros s n. rewrite str_app_assoc, Hatoi. simpl.
    rewrite digit_of_pretty_N_char by (by apply N.mod_lt).
    f_equal. rewrite Z.pow_add_r, Z.pow_1_r by lia.
    rewrite (N.div_mod x 10) at 3 by done.
    rewrite N2Z.inj_add, N2Z.inj_mul. simpl. lia.
Qed.

Lemma pretty_pos_digits (p : positive) :
  ∃ c t,
    pretty (Z.pos p) = String c t ∧
    (∀ c', c' ∈ chars (String c t) → is_digit c' = true) ∧
    atoi_digits (String c t) 0 = Some (Z.pos p).
Proof.
  destruct (pretty_N_go_digits (N.pos p)) as (pre & k & Hk & Hgo & Hdig & Hne & Hatoi).
  assert (pretty (Z.pos p) = pre) as Hpre.
  { unfold pretty, pretty_Z, pretty, pretty_positive, pretty, pretty_N.
    rewrite decide_False by done. rewrite Hgo. apply str_app_nil_r. }
  destruct pre as [|c t]; [by destruct Hne|].
  exists c, t. split; [done|]. split; [done|].
  specialize (Hatoi "" 0). rewrite str_app_nil_r in Hatoi.
  rewrite Hatoi. simpl. done.
Qed.

(** [Atoi] on a string that starts with a digit. *)
Lemma Atoi_unsigned (c : ascii) (t : string) (v : Z) :
  is_digit c = true → atoi_digits (String c t) 0 = Some v →
  minInt64 ≤ v ≤ maxInt64 → Atoi (String c t) = Some v.
Proof.
  intros Hc Hv Hrange.
  assert (c ≠ "-"%char ∧ c ≠ "+"%char) as [Hm Hp].
  { split; intros ->; discriminate Hc. }
  assert (Atoi (String c t)
          = match atoi_digits (String c t) 0 with
            | Some n => if (minInt64 <=? n) && (n <=? maxInt64)
                        then Some n else None
            | None => None
            end) as ->.
  { unfold Atoi.
    destruct c as [[] [] [] [] [] [] [] []]; try done. }
  rewrite Hv.
  assert ((minInt64 <=? v) = true) as -> by (apply Z.leb_le; lia).
  assert ((v <=? maxInt64) = true) as -> by (apply Z.leb_le; lia).
  done.
Qed.

(** What [%d] prints, [strconv.Atoi] reads back. *)
Lemma Atoi_Itoa (n : Z) :
  minInt64 ≤ n ≤ maxInt64 → Atoi (Itoa n) = Some n.
Proof.
  intros Hn. unfold Itoa. destruct n as [|p|p].
  - reflexivity.
  - destruct (pretty_pos_digits p) as (c & t & -> & Hdig & Hv).
    apply Atoi_unsigned; [|done..]. apply Hdig. simpl. left.
  - destruct (pretty_pos_digits p) as (c & t & Hpre & Hdig & Hv).
    change (pretty (Z.neg p)) with ("-" +:+ pretty (Z.pos p)).
    rewrite Hpre.
    assert (Atoi ("-" +:+ String c t)
            = match atoi_digits (String c t) 0 with
              | Some n => if (minInt64 <=? - n) && (- n <=? maxInt64)
                          then Some (- n) else None
              | None => None
              end) as -> by reflexivity.
    rewrite Hv.
    assert ((minInt64 <=? - Z.pos p) = true) as -> by (apply Z.leb_le; lia).
    assert ((- Z.pos p <=? maxInt64) = true) as ->
      by (apply Z.leb_le; unfold maxInt64; lia).
    done.
Qed.

Lemma chars_of_list (l : list ascii) : chars (string_of_list_ascii l) = l.
Proof. apply list_ascii_of_string_of_list_ascii. Qed.

Lemma is_digit_not_sep (c : ascii) :
  is_digit c = true → c ≠ "/"%char ∧ c ≠ "."%char ∧ c ≠ newline.
Proof. intros Hc. repeat split; intros ->; discriminate Hc. Qed.

(** The decimal rendering: a digit or a minus sign, then digits. *)
Lemma Itoa_shape (n : Z) :
  ∃ c t, Itoa n = String c t ∧
         (is_digit c = true ∨ c = "-"%char) ∧
         (∀ c', c' ∈ chars t → is_digit c' = true).
Proof.
  unfold Itoa. destruct n as [|p|p].
  - exists "0"%char, "". split; [done|]. split; [by left|].
    intros c' Hc'. by apply elem_of_nil in Hc'.
  - destruct (pretty_pos_digits p) as (c & t & -> & Hdig & _).
    exists c, t. split; [done|]. split.
    + left. apply Hdig. simpl. left.
    + intros c' Hc'. apply Hdig. simpl. by right.
  - destruct (pretty_pos_digits p) as (c & t & Hpre & Hdig & _).
    exists "-"%char, (String c t). split.
    + change (pretty (Z.neg p)) with ("-" +:+ pretty (Z.pos p)). by rewrite Hpre.
    + split; [by right|]. exact Hdig.
Qed.

(** The extension: nothing, or a dot followed by neither dot nor slash. *)
Lemma ext_loop_shape (rev_prefix suffix : list ascii) :
  (∀ c, c ∈ suffix → c ≠ "/"%char ∧ c ≠ "."%char) →
  ext_loop rev_prefix suffix = [] ∨
  ∃ t, ext_loop rev_prefix suffix = "."%char :: t ∧
       ∀ c, c ∈ t → c ≠ "/"%char ∧ c ≠ "."%char.
Proof.
  revert suffix. induction rev_prefix as [|c rest IH]; intros suffix Hs; simpl.
  { by left. }
  destruct (Ascii.eqb c "/") eqn:Hslash; [by left|].
  destruct (Ascii.eqb c ".") eqn:Hdot.
  - apply Ascii.eqb_eq in Hdot as ->. right. by exists suffix.
  - apply IH. intros c' Hc'. apply elem_of_cons in Hc' as [->|Hc']; [|by apply Hs].
    apply Ascii.eqb_neq in Hslash. apply Ascii.eqb_neq in Hdot. done.
Qed.

Lemma Ext_shape (path : string) :
  Ext path = "" ∨
  ∃ t, Ext path = String "." t ∧ ∀ c, c ∈ chars t → c ≠ "/"%char ∧ c ≠ "."%char.
Proof.
  unfold Ext.
  destruct (ext_loop_shape (rev (list_ascii_of_string path)) [])
    as [->|(t & -> & Ht)].
  - intros c Hc. by apply elem_of_nil in Hc.
  - by left.
  - right. exists (string_of_list_ascii t). split; [done|].
    intros c. rewrite chars_of_list. apply Ht.
Qed.

Lemma split_at_dot (a1 a2 e1 e2 : string) :
  no_dot a1 → no_dot a2 → dotted e1 → dotted e2 →
  a1 +:+ e1 = a2 +:+ e2 → a1 = a2 ∧ e1 = e2.
Proof.
  revert a2. induction a1 as [|c1 a1 IH]; intros [|c2 a2] H1 H2 He1 He2 Heq.
  - done.
  - rewrite str_app_cons in Heq. simpl in Heq.
    destruct He1 as [->|(t & ->)]; [done|]. injection Heq as <- _.
    destruct (H2 "."%char). { simpl. left. } done.
  - rewrite str_app_cons in Heq. simpl in Heq.
    destruct He2 as [->|(t & ->)]; [done|]. injection Heq as -> _.
    destruct (H1 "."%char). { simpl. left. } done.
  - rewrite !str_app_cons in Heq. injection Heq as -> Heq.
    destruct (IH a2) as [-> ->]; try done.
    + intros c Hc. apply H1. simpl. by right.
    + intros c Hc. apply H2. simpl. by right.
Qed.

Lemma Itoa_no_dot (n : Z) : no_dot (Itoa n).
Proof.
  destruct (Itoa_shape n) as (c & t & -> & Hc & Ht).
  intros c' Hc'. simpl in Hc'. apply elem_of_cons in Hc' as [->|Hc'].
  - destruct Hc as [Hc| ->]; [|done]. by apply is_digit_not_sep in Hc as (_ & ? & _).
  - apply Ht in Hc'. by apply is_digit_not_sep in Hc' as (_ & ? & _).
Qed.

Lemma Ext_dotted (path : string) : dotted (Ext path).
Proof. destruct (Ext_shape path) as [->|(t & -> & _)]; [by left|right; eauto]. Qed.

(** X20. Two uploads get the same stored name only when they agree on the
    declared size and on the extension, and then they do: the name
    determines both. *)
Theorem stored_filename_inj (h1 h2 : FileHeader) :
  stored_filename h1 = stored_filename h2 ↔
  Size h1 = Size h2 ∧ Ext (Filename h1) = Ext (Filename h2).
Proof.
  unfold stored_filename. split.
  - intros Heq.
    apply split_at_dot in Heq as [Hsize Hext];
      auto using Itoa_no_dot, Ext_dotted.
    split; [|done]. unfold Itoa in Hsize. by apply (inj pretty) in Hsize.
  - by intros [-> ->].
Qed.

Lemma split_go_no_slash (cur s : string) :
  (∀ c, c ∈ chars s → c ≠ "/"%char) →
  split_go cur s = [String.rev_app cur s].
Proof.
  revert cur. induction s as [|c s IH]; intros cur Hs; simpl; [done|].
  destruct (Ascii.eqb c "/") eqn:Hc.
  - apply Ascii.eqb_eq in Hc as ->. destruct (Hs "/"%char); [simpl; left|done].
  - apply IH. intros c' Hc'. apply Hs. simpl. by right.
Qed.

(** A plain name stays in the images directory. *)
Lemma Join_images_plain (c : ascii) (t : string) :
  c ≠ "."%char → (∀ c', c' ∈ chars (String c t) → c' ≠ "/"%char) →
  Join "./images" (String c t) = "images/" +:+ String c t.
Proof.
  intros Hdot Hslash.
  unfold Join. rewrite decide_True by done.
  unfold Clean, split_path.
  change ("./images" +:+ "/" +:+ String c t)
    with (String "." (String "/" ("images" +:+ String "/" (String c t)))).
  cbv beta iota.
  assert (split_go "" (String "." (String "/" ("images" +:+ String "/" (String c t))))
          = ["."; "images"; String c t]) as ->.
  { change (split_go "" (String "." (String "/" ("images" +:+ String "/" (String c t)))))
      with ("." :: "images" :: split_go "" (String c t)).
    by rewrite split_go_no_slash. }
  simpl.
  destruct (decide (String c t = "" ∨ String c t = ".")) as [[?|?]|_];
    [simplify_eq..|].
  destruct (decide (String c t = "..")) as [?|_]; [simplify_eq|].
  done.
Qed.

(** X21. Whatever the original file name and the declared size of an
    upload, its stored name contains no path separator and is neither
    empty, [.] nor [..]; the file is written directly under the images
    directory, at [images/<stored name>]. *)
Theorem image_path_confined (u : Upload) :
  image_path u = "images/" +:+ stored_filename (header u) ∧
  (∀ c, c ∈ chars (stored_filename (header u)) → c ≠ "/"%char) ∧
  stored_filename (header u) ≠ "" ∧
  stored_filename (header u) ≠ "." ∧
  stored_filename (header u) ≠ "..".
Proof.
  unfold image_path, stored_filename.
  destruct (Itoa_shape (Size (header u))) as (c & t & -> & Hc & Ht).
  rewrite str_app_cons.
  assert (c ≠ "."%char ∧ c ≠ "/"%char) as [Hdot Hsl].
  { destruct Hc as [Hc| ->]; [|done].
    by apply is_digit_not_sep in Hc as (? & ? & _). }
  assert (∀ c', c' ∈ chars (String c (t +:+ Ext (Filename (header u)))) →
                c' ≠ "/"%char) as Hslash.
  { intros c' Hc'. simpl in Hc'. apply elem_of_cons in Hc' as [->|Hc']; [done|].
    fold (chars (t +:+ Ext (Filename (header u)))) in Hc'.
    rewrite chars_app in Hc'. apply elem_of_app in Hc' as [Hc'|Hc'].
    - apply Ht in Hc'. by apply is_digit_not_sep in Hc' as (? & _).
    - destruct (Ext_shape (Filename (header u))) as [He|(t' & He & Ht')];
        rewrite He in Hc'.
      + by apply elem_of_nil in Hc'.
      + simpl in Hc'. apply elem_of_cons in Hc' as [->|Hc']; [done|].
        by apply Ht' in Hc' as [? _]. }
  split; [by apply Join_images_plain|]. split; [done|].
  repeat split; intros ?; simplify_eq.
Qed.

(** No newline is left in an escaped text. *)
Lemma ReplaceAll_chars (s : string) :
  ∀ c, c ∈ chars (ReplaceAll s newline backslash_n) → c ≠ newline.
Proof.
  induction s as [|x s IH]; intros c; simpl.
  { intros Hc. by apply elem_of_nil in Hc. }
  destruct (Ascii.eqb x newline) eqn:Hx.
  - unfold backslash_n. rewrite !str_app_cons. simpl.
    intros Hc. apply elem_of_cons in Hc as [->|Hc]; [done|].
    apply elem_of_cons in Hc as [->|Hc]; [done|]. by apply IH.
  - simpl. intros Hc. apply elem_of_cons in Hc as [->|Hc]; [|by apply IH].
    by apply Ascii.eqb_neq in Hx.
Qed.

Lemma Itoa_chars (n : Z) : ∀ c, c ∈ chars (Itoa n) → c ≠ newline.
Proof.
  destruct (Itoa_shape n) as (c0 & t & -> & Hc0 & Ht).
  intros c Hc. simpl in Hc. apply elem_of_cons in Hc as [->|Hc].
  - destruct Hc0 as [Hc0| ->]; [|done].
    by apply is_digit_not_sep in Hc0 as (_ & _ & ?).
  - apply Ht in Hc. by apply is_digit_not_sep in Hc as (_ & _ & ?).
Qed.

(** X23. The body of a 200 is a single line as far as the id and the
    markdown go: it contains a newline only if the image name does. *)
Theorem success_body_single_line (note : Note) :
  (∀ c, c ∈ chars (Image note) → c ≠ newline) →
  ∀ c, c ∈ chars (Body (success note)) → c ≠ newline.
Proof.
  intros Himg c. unfold success. cbn [Body].
  unfold success_format, quoted. rewrite !chars_app, !elem_of_app.
  intros Hc.
  repeat match goal with
         | Hx : _ ∨ _ |- _ => destruct Hx as [Hx|Hx]
         end;
    try (by apply Himg);
    try (by apply (Itoa_chars (ID note)));
    try (by apply (ReplaceAll_chars (Markdown note)));
    unfold chars in *; simpl in *;
    repeat match goal with
           | Hx : _ ∈ _ :: _ |- _ => apply elem_of_cons in Hx as [->|Hx]
           | Hx : _ ∈ [] |- _ => by apply elem_of_nil in Hx
           end; done.
Qed.

Lemma success_body_single_line_witness :
  let note := mkNote 1 1700000000 "10.png"
                ("# Title" +:+ String newline "second line") in
  newline ∉ chars (Body (success note)).
Proof.
  intros note Hin.
  apply (success_body_single_line note) in Hin; [by apply Hin|].
  intros c Hc. vm_compute in Hc.
  repeat (apply elem_of_cons in Hc as [->|Hc]; [discriminate|]).
  by apply elem_of_nil in Hc.
Defined.

(** ** From creation to regeneration *)

Section Lifecycle.
Context `{Codec}.
Implicit Types (amb : Ambient) (r : Request) (w : World) (u : Upload).

(** X22. The id that [/api/add-note] prints in its answer is the one
    [/api/regenerate-note] accepts: posting it back finds the note and the
    image just stored, and with an answer of at least one choice the
    request is answered 200, the note keeping its id, creation timestamp and
    image and taking the new transcription as markdown. *)
Theorem add_then_regenerate amb1 amb2 r1 r2 w u c1 c2 choice1 rest1
    choice2 rest2 :
  reaches_disk amb1 r1 u →
  resolve amb1 (aiClient w) = Some c1 →
  endpoint amb1 c1 (request_for (content u))
  = Ok (mkResponse (choice1 :: rest1)) →
  let id := Z.max (sqlite_sequence (db w)) (max_rowid (notes (db w))) + 1 in
  id ≤ maxInt64 →
  Method r2 = MethodPost → FormValue r2 "id" = Itoa id → form_err r2 = None →
  resolve amb2 (aiClient w) = Some c2 →
  endpoint amb2 c2 (request_for (content u))
  = Ok (mkResponse (choice2 :: rest2)) →
  let w1 := (AddNoteHandler amb1 r1 w).1 in
  let out := RegenerateNoteHandler amb2 r2 w1 in
  Body (AddNoteHandler amb1 r1 w).2
  = success_format id (stored_filename (header u))
      (ReplaceAll (Content choice1) newline backslash_n) ∧
  out.2 = success (mkNote id (CURRENT_TIMESTAMP amb1)
                     (stored_filename (header u)) (Content choice2)) ∧
  notes (db out.1) !! id
  = Some (mkRow (CURRENT_TIMESTAMP amb1) (stored_filename (header u))
            (Content choice2)).
Proof.
  intros Hu Hc1 He1 id Hid Hm Hform Hp Hc2 He2 w1 out. subst w1 out.
  pose proof (max_rowid_bound (notes (db w))) as [H0 _].
  rewrite (AddNoteHandler_ok _ _ _ u c1 choice1 rest1) by done.
  split; [done|].
  rewrite (RegenerateNoteHandler_ok _ _ _ id
             (mkRow (CURRENT_TIMESTAMP amb1) (stored_filename (header u))
                (Content choice1)) (content u) c2 choice2 rest2);
    try done.
  - simpl. split; [done|]. by rewrite lookup_insert_eq.
  - rewrite Hform. apply Atoi_Itoa. unfold minInt64. subst id. lia.
  - simpl. by rewrite lookup_insert_eq.
  - simpl. apply lookup_insert_eq.
Qed.
End Lifecycle.

Lemma add_then_regenerate_witness :
  let r1 := post "" (Some (png "a.png" ten_bytes)) in
  let r2 := post "1" None in
  let w1 := (AddNoteHandler (H := test_codec) (quiet ["# Title"]) r1 fresh).1 in
  reaches_disk (quiet ["# Title"]) r1 (png "a.png" ten_bytes) ∧
  FormValue r2 "id" = Itoa 1 ∧
  (RegenerateNoteHandler (H := test_codec) (quiet ["# Again"]) r2 w1).2
  = success (mkNote 1 1700000000 "10.png" "# Again").
Proof.
  intros r1 r2 w1.
  assert (reaches_disk (quiet ["# Title"]) r1 (png "a.png" ten_bytes)) as Hu
    by (repeat split; reflexivity).
  split; [exact Hu|]. split; [reflexivity|].
  assert (Z.max (sqlite_sequence (db fresh)) (max_rowid (notes (db fresh))) + 1
          ≤ maxInt64) as Hle by (by vm_compute).
  destruct (add_then_regenerate (H := test_codec) (quiet ["# Title"])
              (quiet ["# Again"]) r1 r2 fresh (png "a.png" ten_bytes)
              gemini gemini (mkChoice "# Title") [] (mkChoice "# Again") []
              Hu eq_refl eq_refl Hle eq_refl eq_refl eq_refl eq_refl eq_refl)
    as (_ & Hout & _).
  exact Hout.
Defined.

(** ** Updates and the order of the listing *)

Lemma GetAllNotes_stamps (d : DB) :
  ∃ l, GetAllNotes d = Ok l ∧
       StronglySorted later (stamp <$> l) ∧
       stamp <$> l ≡ₚ (λ kr : Z * Row, (kr.1, date_created kr.2))
                        <$> map_to_list (notes d).
Proof.
  destruct (GetAllNotes_newest_first d) as (l & Hl & Hsorted & Hperm).
  exists l. split; [done|]. split.
  - by apply (StronglySorted_fmap stamp (λ a b, DateCreated b ≤ DateCreated a)).
  - rewrite Hperm, <- list_fmap_compose. done.
Qed.

Lemma stamps_of_update (m : gmap Z Row) (id : Z) (row row' : Row) :
  m !! id = Some row → date_created row' = date_created row →
  (λ kr : Z * Row, (kr.1, date_created kr.2)) <$> map_to_list (<[id := row']> m)
  ≡ₚ (λ kr : Z * Row, (kr.1, date_created kr.2)) <$> map_to_list m.
Proof.
  intros Hid Hdate.
  rewrite <- (insert_delete_eq m id row').
  rewrite map_to_list_insert by apply lookup_delete_eq.
  rewrite <- (map_to_list_delete m id row) by done.
  simpl. by rewrite Hdate.
Qed.

(** X24. [UpdateNote] does not move a note in the listing: before and after
    it, [GetAllNotes] returns the same sequence of creation times and the
    same ids; when no two notes share a creation time, the ids come in the
    same order. *)
Theorem UpdateNote_keeps_listing_order (d : DB) (id : Z) (img md : string) :
  ∃ l l',
    GetAllNotes d = Ok l ∧
    GetAllNotes (UpdateNote d id img md).1 = Ok l' ∧
    DateCreated <$> l' = DateCreated <$> l ∧
    ID <$> l' ≡ₚ ID <$> l ∧
    (NoDup (DateCreated <$> l) → ID <$> l' = ID <$> l).
Proof.
  destruct (GetAllNotes_stamps d) as (l & Hl & Hs & Hp).
  destruct (GetAllNotes_stamps (UpdateNote d id img md).1)
    as (l' & Hl' & Hs' & Hp').
  exists l, l'. split; [done|]. split; [done|].
  assert (stamp <$> l' ≡ₚ stamp <$> l) as Hperm.
  { rewrite Hp, Hp'. destruct (notes d !! id) as [row|] eqn:Hid.
    - rewrite (UpdateNote_present _ _ _ _ row) by done. simpl.
      by apply (stamps_of_update _ _ row).
    - by rewrite UpdateNote_absent. }
  assert (∀ k : list Note, DateCreated <$> k = snd <$> (stamp <$> k)) as Hd.
  { intros k. by rewrite <- list_fmap_compose. }
  assert (∀ k : list Note, ID <$> k = fst <$> (stamp <$> k)) as Hi.
  { intros k. by rewrite <- list_fmap_compose. }
  split; [|split].
  - rewrite !Hd.
    apply (StronglySorted_unique_strong (flip Z.le)).
    + intros x1 x2 _ _. unfold flip. lia.
    + apply (StronglySorted_fmap snd later); [done|exact Hs'].
    + apply (StronglySorted_fmap snd later); [done|exact Hs].
    + by rewrite Hperm.
  - by rewrite !Hi, Hperm.
  - intros Hnd. rewrite !Hi. f_equal.
    apply (StronglySorted_unique_strong later); [|done..].
    intros x1 x2 Hx1 Hx2 H12 H21.
    assert (x1.2 = x2.2) as Heq by (unfold later in *; lia).
    rewrite Hd in Hnd.
    rewrite Hperm in Hx1.
    apply list_elem_of_lookup in Hx1 as [i Hi1].
    apply list_elem_of_lookup in Hx2 as [j Hj2].
    assert (i = j) as ->.
    { apply (NoDup_lookup _ i j x1.2 Hnd).
      - by rewrite list_lookup_fmap, Hi1.
      - by rewrite list_lookup_fmap, Hj2, Heq. }
    congruence.
Qed.

(** ** The images directory and the existence check *)

Lemma images_cons (n : string) :
  "images/" +:+ n
  = String "i" (String "m" (String "a" (String "g" (String "e"
      (String "s" (String "/" n)))))).
Proof. reflexivity. Qed.

(** [filepath.Join] puts a plain name directly under the images
    directory. *)
Lemma Join_images_name (n : string) :
  plain_name n → Join "./images" n = "images/" +:+ n.
Proof.
  intros (Hne & Hdot & Hdd & Hslash).
  unfold Join. rewrite decide_True by done.
  unfold Clean, split_path.
  change ("./images" +:+ "/" +:+ n)
    with (String "." (String "/" ("images" +:+ String "/" n))).
  cbv beta iota.
  assert (split_go "" (String "." (String "/" ("images" +:+ String "/" n)))
          = ["."; "images"; n]) as ->.
  { change (split_go "" (String "." (String "/" ("images" +:+ String "/" n))))
      with ("." :: "images" :: split_go "" n).
    by rewrite split_go_no_slash. }
  simpl.
  destruct (decide (n = "" ∨ n = ".")) as [[?|?]|_]; [done..|].
  destruct (decide (n = "..")) as [?|_]; [done|].
  done.
Qed.

Lemma dir_prefixes_no_slash (cur s : string) :
  (∀ c, c ∈ chars s → c ≠ "/"%char) → dir_prefixes cur s = [].
Proof.
  revert cur. induction s as [|c s IH]; intros cur Hs; simpl; [done|].
  destruct (Ascii.eqb c "/") eqn:Hc.
  - apply Ascii.eqb_eq in Hc as ->. destruct (Hs "/"%char); [simpl; left|done].
  - apply IH. intros c' Hc'. apply Hs. simpl. by right.
Qed.

(** The one directory on the way to a plain file of the images directory. *)
Lemma ancestors_images (n : string) :
  plain_name n → ancestors ("images/" +:+ n) = ["images"].
Proof.
  intros (_ & _ & _ & Hslash). unfold ancestors.
  change (dir_prefixes "" ("images/" +:+ n))
    with ("images" :: dir_prefixes "/segami" n).
  by rewrite dir_prefixes_no_slash.
Qed.

(** A plain file of the images directory is in no directory of it. *)
Lemma ancestors_images_flat (n m : string) :
  plain_name m → "images/" +:+ n ∉ ancestors ("images/" +:+ m).
Proof.
  intros Hm Hin. rewrite ancestors_images in Hin by done.
  apply list_elem_of_singleton in Hin. by rewrite images_cons in Hin.
Qed.

(** Where the images directory has no directory in it, [os.Stat] of a plain
    name there, unless it is refused, fails exactly when no file has the
    name, and then with ENOENT. *)
Lemma os_Stat_flat (amb : Ambient) (w : World) (n : string) :
  stat_err amb = None → flat_store w → plain_name n →
  os_Stat amb ("images/" +:+ n) w
  = match files w !! ("images/" +:+ n) with
    | Some _ => None
    | None => Some ErrNotExist
    end.
Proof.
  intros Hamb [Himages Hflat] Hn. unfold os_Stat. rewrite Hamb.
  destruct (files w !! ("images/" +:+ n)) as [data|] eqn:Hfile; [done|].
  assert (is_dir w ("images/" +:+ n) = false) as ->.
  { unfold is_dir. apply orb_false_intro.
    - apply bool_decide_eq_false. rewrite images_cons. by intros [?|?].
    - apply not_true_is_false. intros Hex.
      apply existsb_exists in Hex as (k & Hk & Hb).
      apply list_elem_of_In, list_elem_of_fmap in Hk as ([k' v] & -> & Hkv).
      apply elem_of_map_to_list in Hkv. simpl in Hb.
      apply bool_decide_eq_true in Hb.
      by apply (Hflat k' (mk_is_Some _ _ Hkv) n). }
  assert (under_file w ("images/" +:+ n) = false) as ->; [|done].
  unfold under_file. rewrite ancestors_images by done. simpl.
  rewrite orb_false_r. apply bool_decide_eq_false.
  rewrite Himages. by intros [? ?].
Qed.

Lemma os_IsNotExist_true (st : option error) :
  os_IsNotExist st = true ↔ st = Some ErrNotExist.
Proof. destruct st as [[]|]; simpl; split; intros; simplify_eq; done. Qed.

Lemma plain_name_checked (n : string) :
  n ≠ "" → n ≠ "." → n ≠ ".." → Forall (λ c, c ≠ "/"%char) (chars n) →
  plain_name n.
Proof.
  intros ? ? ? Hall. repeat split; [done..|]. by apply Forall_forall.
Qed.

(** A stored name is a plain name. *)
Lemma stored_filename_plain (h : FileHeader) : plain_name (stored_filename h).
Proof.
  unfold plain_name, stored_filename.
  destruct (Itoa_shape (Size h)) as (c & t & -> & Hc & Ht).
  rewrite str_app_cons.
  assert (c ≠ "."%char ∧ c ≠ "/"%char) as [Hdot Hsl].
  { destruct Hc as [Hc| ->]; [|done].
    by apply is_digit_not_sep in Hc as (? & ? & _). }
  split; [done|]. split; [intros ?; simplify_eq|].
  split; [intros ?; simplify_eq|].
  intros c' Hc'. simpl in Hc'. apply elem_of_cons in Hc' as [->|Hc']; [done|].
  fold (chars (t +:+ Ext (Filename h))) in Hc'.
  rewrite chars_app in Hc'. apply elem_of_app in Hc' as [Hc'|Hc'].
  - apply Ht in Hc'. by apply is_digit_not_sep in Hc' as (? & _).
  - destruct (Ext_shape (Filename h)) as [He|(t' & He & Ht')];
      rewrite He in Hc'.
    + by apply elem_of_nil in Hc'.
    + simpl in Hc'. apply elem_of_cons in Hc' as [->|Hc']; [done|].
      by apply Ht' in Hc' as [? _].
Qed.

Lemma image_path_plain (u : Upload) :
  image_path u = "images/" +:+ stored_filename (header u).
Proof. apply Join_images_name, stored_filename_plain. Qed.

(** Writing an upload keeps the images directory flat. *)
Lemma flat_store_write (w : World) (u : Upload) (data : list Byte.byte) :
  flat_store w →
  flat_store (with_files w (<[image_path u := data]> (files w))).
Proof.
  intros [Himages Hflat]. split; simpl.
  - rewrite lookup_insert_ne; [done|].
    rewrite image_path_plain, images_cons. done.
  - intros k. destruct (decide (k = image_path u)) as [->|Hne].
    + intros _ n. rewrite image_path_plain.
      apply ancestors_images_flat, stored_filename_plain.
    + rewrite lookup_insert_ne by done. apply Hflat.
Qed.

Lemma plain_rows_insert (d : DB) (id seq : Z) (row : Row) :
  plain_rows d → plain_name (image row) →
  plain_rows (mkDB (<[id := row]> (notes d)) seq).
Proof.
  intros Hrows Hrow k row'. simpl.
  destruct (decide (id = k)) as [<-|Hne].
  - rewrite lookup_insert_eq. by intros [= <-].
  - rewrite lookup_insert_ne by done. apply Hrows.
Qed.

Section ImagesDirectory.
Context `{Codec}.
Implicit Types (amb : Ambient) (r : Request) (w : World) (u : Upload).

(** [/api/regenerate-note] writes no file. *)
Lemma RegenerateNoteHandler_keeps_files amb r w :
  files (RegenerateNoteHandler amb r w).1 = files w.
Proof.
  destruct (RegenerateNoteHandler_early amb r w)
    as [(id & Hm & Hid & Hp)|(-> & _)]; [|done].
  rewrite (RegenerateNoteHandler_parsed _ _ _ id) by done.
  destruct (GetNoteByID _ _) as [note|err]; [|done]. simpl.
  destruct (os_IsNotExist _); [done|].
  destruct (ConvertImageToMarkdown _ _ _ _) as [w2 [text|err]] eqn:Hconv;
    apply Convert_frame_eq in Hconv as (Hdb & Hfiles & _); [|done].
  by destruct (UpdateNote _ _ _ _) as [d [updated|err]].
Qed.

(** The handlers write plain files of the images directory and nothing
    else: they leave it without a directory in it. *)
Lemma handlers_keep_flat_store amb r w :
  flat_store w →
  flat_store (AddNoteHandler amb r w).1 ∧
  flat_store (UpdateNoteHandler amb r w).1 ∧
  flat_store (RegenerateNoteHandler amb r w).1.
Proof.
  intros Hflat. split; [|split].
  - destruct (decide (Method r = MethodPost)) as [Hm|Hm].
    2:{ by rewrite AddNoteHandler_not_post. }
    destruct (multipart_err r) as [e|] eqn:Hp.
    { by rewrite (AddNoteHandler_bad_form _ _ _ e). }
    destruct (MultipartFiles r !! "image") as [u|] eqn:Hf.
    2:{ by rewrite AddNoteHandler_no_image. }
    destruct (create_err amb) as [e|] eqn:Hc.
    { by rewrite (AddNoteHandler_create_failed _ _ _ u e). }
    destruct (copy_err amb) as [[n e]|] eqn:Hcp.
    { rewrite (AddNoteHandler_copy_failed _ _ _ u n e) by done.
      by apply flat_store_write. }
    unfold flat_store. rewrite (AddNoteHandler_files _ _ _ u) by done.
    by apply (flat_store_write w u (content u)).
  - destruct (decide (Method r = MethodPost)) as [Hm|Hm].
    2:{ by rewrite UpdateNoteHandler_not_post. }
    destruct (decide (FormValue r "id" = "")) as [He|He].
    { by rewrite UpdateNoteHandler_no_id. }
    destruct (Atoi (FormValue r "id")) as [id|] eqn:Hid.
    2:{ by rewrite UpdateNoteHandler_bad_id. }
    destruct (body_err r) as [e|] eqn:Hp.
    { by rewrite (UpdateNoteHandler_bad_form _ _ _ id e). }
    destruct (MultipartFiles r !! "image") as [u|] eqn:Hf.
    2:{ by rewrite (UpdateNoteHandler_no_image _ _ _ id). }
    destruct (create_err amb) as [e|] eqn:Hc.
    { by rewrite (UpdateNoteHandler_create_failed _ _ _ id u e). }
    destruct (copy_err amb) as [[n e]|] eqn:Hcp.
    { rewrite (UpdateNoteHandler_copy_failed _ _ _ id u n e) by done.
      by apply flat_store_write. }
    unfold flat_store. rewrite (UpdateNoteHandler_files _ _ _ u id) by done.
    by apply (flat_store_write w u (content u)).
  - unfold flat_store. by rewrite RegenerateNoteHandler_keeps_files.
Qed.

(** Every image name the handlers store is a plain name. *)
Lemma handlers_keep_plain_rows amb r w :
  plain_rows (db w) →
  plain_rows (db (AddNoteHandler amb r w).1) ∧
  plain_rows (db (UpdateNoteHandler amb r w).1) ∧
  plain_rows (db (RegenerateNoteHandler amb r w).1).
Proof.
  intros Hrows. split; [|split].
  - destruct (AddNoteHandler_early amb r w) as [(u & Hu)|(-> & _)]; [|done].
    rewrite (AddNoteHandler_saved _ _ _ u) by done.
    destruct (ConvertImageToMarkdown _ _ _ _) as [w2 [text|err]] eqn:Hconv;
      apply Convert_frame_eq in Hconv as (Hdb & _); simpl in *; [|by rewrite Hdb].
    destruct (AddNote _ _ _ _ _) as [d [note|err]] eqn:Hadd; simpl.
    + apply AddNote_inv in Hadd as (_ & _ & ->). rewrite Hdb.
      apply plain_rows_insert; [done|apply stored_filename_plain].
    + apply AddNote_Err in Hadd as ->. by rewrite Hdb.
  - destruct (UpdateNoteHandler_early amb r w)
      as [(u & id & Hu & Hid)|(-> & _)]; [|done].
    rewrite (UpdateNoteHandler_saved _ _ _ u id) by auto.
    destruct (ConvertImageToMarkdown _ _ _ _) as [w2 [text|err]] eqn:Hconv;
      apply Convert_frame_eq in Hconv as (Hdb & _); simpl in *; [|by rewrite Hdb].
    destruct (UpdateNote _ _ _ _) as [d [note|err]] eqn:Hupd; simpl.
    + apply UpdateNote_Ok in Hupd as (row & _ & -> & _). rewrite Hdb.
      apply plain_rows_insert; [done|apply stored_filename_plain].
    + apply UpdateNote_Err in Hupd as ->. by rewrite Hdb.
  - destruct (RegenerateNoteHandler_early amb r w)
      as [(id & Hm & Hid & Hp)|(-> & _)]; [|done].
    rewrite (RegenerateNoteHandler_parsed _ _ _ id) by done.
    destruct (GetNoteByID _ _) as [note|err] eqn:Hget; [|done]. simpl.
    destruct (os_IsNotExist _); [done|].
    destruct (ConvertImageToMarkdown _ _ _ _) as [w2 [text|err]] eqn:Hconv;
      apply Convert_frame_eq in Hconv as (Hdb & _); simpl in *; [|by rewrite Hdb].
    destruct (UpdateNote _ _ _ _) as [d [updated|err]] eqn:Hupd; simpl.
    + apply UpdateNote_Ok in Hupd as (row & Hrow & -> & _).
      rewrite Hdb in *. apply plain_rows_insert; [done|]. simpl.
      apply GetNoteByID_Ok in Hget as (row' & Hrow' & ->). simpl.
      by apply (Hrows id).
    + apply UpdateNote_Err in Hupd as ->. by rewrite Hdb.
Qed.

(** [/api/regenerate-note] for a stored note: the existence check decides
    between 404 and going on to the transcription. *)
Lemma RegenerateNoteHandler_stat amb r w id row :
  Method r = MethodPost → Atoi (FormValue r "id") = Some id →
  notes (db w) !! id = Some row →
  let out := RegenerateNoteHandler amb r w in
  (os_Stat amb (Join "./images" (image row)) w = Some ErrNotExist →
   out = (w, failure "Image file not found" StatusNotFound)) ∧
  (StatusCode out.2 = StatusNotFound →
   os_Stat amb (Join "./images" (image row)) w = Some ErrNotExist).
Proof.
  intros Hm Hid Hrow out. subst out.
  rewrite (RegenerateNoteHandler_parsed _ _ _ id) by done.
  rewrite (GetNoteByID_present _ _ row) by done. simpl.
  destruct (os_IsNotExist _) eqn:Hst.
  - apply os_IsNotExist_true in Hst. by rewrite Hst.
  - split.
    + intros Hst'. apply os_IsNotExist_true in Hst'. congruence.
    + destruct (ConvertImageToMarkdown _ _ _ _) as [w2 [text|err]]; [|done].
      by destruct (UpdateNote _ _ _ _) as [d [note|err]].
Qed.
End ImagesDirectory.

(** C5. A request to [/api/regenerate-note] for a stored note whose image
    file is not in the images directory is answered 404 "Image file not
    found".  The answer comes from the [os.Stat] check, before any
    transcription: the world is returned as it was found, so no request has
    left the process and the note, its markdown included, is as before,
    whatever the endpoint would have said.  Here the image of the note is a
    plain file name, as the data model has it, the images directory has no
    directory in it, as when only the handlers write to it, and the
    operating system does not refuse the call; the check then looks at
    [images/<image>], fails exactly when no file is stored there, and the
    404 is given in no other case. *)
Theorem RegenerateNoteHandler_missing_image `{Codec} (amb : Ambient)
    (r : Request) (w : World) (id : Z) (row : Row) :
  Method r = MethodPost →
  Atoi (FormValue r "id") = Some id →
  notes (db w) !! id = Some row →
  plain_name (image row) →
  flat_store w →
  stat_err amb = None →
  let out := RegenerateNoteHandler amb r w in
  (files w !! ("images/" +:+ image row) = None →
   out = (w, failure "Image file not found" StatusNotFound) ∧
   StatusCode out.2 = StatusNotFound ∧
   sent out.1 = sent w ∧
   notes (db out.1) !! id = Some row) ∧
  Join "./images" (image row) = "images/" +:+ image row ∧
  (os_Stat amb (Join "./images" (image row)) w = Some ErrNotExist ↔
   files w !! ("images/" +:+ image row) = None) ∧
  (StatusCode out.2 = StatusNotFound ↔
   files w !! ("images/" +:+ image row) = None).
Proof.
  intros Hm Hid Hrow Hname Hflat Hamb out.
  destruct (RegenerateNoteHandler_stat amb r w id row Hm Hid Hrow)
    as [Hmissing Hfound].
  fold out in Hmissing, Hfound.
  assert (os_Stat amb (Join "./images" (image row)) w = Some ErrNotExist ↔
          files w !! ("images/" +:+ image row) = None) as Hstat.
  { rewrite Join_images_name, os_Stat_flat by done.
    by destruct (files w !! ("images/" +:+ image row)). }
  split; [|split; [by apply Join_images_name|split; [done|]]].
  - intros Hfile. apply Hstat, Hmissing in Hfile. by rewrite Hfile.
  - split; [by intros ?%Hfound%Hstat|].
    intros Hfile. apply Hstat, Hmissing in Hfile. by rewrite Hfile.
Qed.

Lemma RegenerateNoteHandler_missing_image_witness :
  let w := with_files one_note {["images/11.png" := ten_other_bytes]} in
  notes (db w) !! 1 = Some (mkRow 1700000000 "10.png" "# Title") ∧
  files w !! "images/10.png" = None ∧
  RegenerateNoteHandler (H := test_codec) (quiet ["# Again"])
    (post "1" None) w
  = (w, failure "Image file not found" StatusNotFound).
Proof.
  intros w. split; [reflexivity|]. split; [reflexivity|].
  apply (RegenerateNoteHandler_missing_image (H := test_codec)
           (quiet ["# Again"]) (post "1" None) w 1
           (mkRow 1700000000 "10.png" "# Title")); try reflexivity.
  - apply plain_name_checked; [done..|]. repeat constructor; done.
  - split; [reflexivity|]. intros k Hk n. subst w. simpl in Hk.
    apply lookup_singleton_is_Some in Hk as <-.
    apply (ancestors_images_flat n "11.png").
    apply plain_name_checked; [done..|]. repeat constructor; done.
Defined.

(** Outside these conditions the check lets the request through, and the
    read fails instead: an empty image name resolves to the images
    directory itself, a name below a stored file to a path that [os.Stat]
    answers with ENOTDIR, and a refused call is no ENOENT either. *)
Example RegenerateNoteHandler_directory_image :
  let w := put_note 2 (mkRow 1700000000 "" "# Title") one_note in
  Join "./images" "" = "images" ∧
  os_Stat (quiet ["# Again"]) "images" w = None ∧
  StatusCode (RegenerateNoteHandler (H := test_codec) (quiet ["# Again"])
                (post "2" None) w).2 = StatusInternalServerError.
Proof. repeat split; vm_compute; reflexivity. Qed.

Example RegenerateNoteHandler_image_below_file :
  let w := put_note 2 (mkRow 1700000000 "10.png/x" "# Title") one_note in
  is_Some (files w !! "images/10.png") ∧
  files w !! "images/10.png/x" = None ∧
  os_Stat (quiet ["# Again"]) (Join "./images" "10.png/x") w
  = Some (External "not a directory") ∧
  StatusCode (RegenerateNoteHandler (H := test_codec) (quiet ["# Again"])
                (post "2" None) w).2 = StatusInternalServerError.
Proof.
  split; [by eexists|]. repeat split; vm_compute; reflexivity.
Qed.

Example RegenerateNoteHandler_stat_refused :
  let amb := {| CURRENT_TIMESTAMP := 1700000000; time_Now := 1700000001;
                create_err := None; copy_err := None;
                stat_err := Some "file name too long";
                OPENAI_API_KEY := ""; endpoint := answers ["# Again"] |} in
  let w := with_files one_note ∅ in
  files w !! "images/10.png" = None ∧
  StatusCode (RegenerateNoteHandler (H := test_codec) amb (post "1" None) w).2
  = StatusInternalServerError.
Proof. repeat split; vm_compute; reflexivity. Qed.

Section RegenerateStatuses.
Context `{Codec}.
Implicit Types (amb : Ambient) (r : Request) (w : World).

(** [status_cases] decides a statement about the status of a given
    answer. *)
Ltac status_cases :=
  simpl;
  unfold StatusOK, StatusBadRequest, StatusNotFound, StatusMethodNotAllowed,
    StatusInternalServerError in *;
  repeat split; intros;
  repeat match goal with
         | Hx : _ ∧ _ |- _ => destruct Hx
         | Hx : _ ∨ _ |- _ => destruct Hx
         | Hx : ∃ _, _ |- _ => destruct Hx
         end;
  simplify_eq; eauto 10; try done; try lia.

(** X12. [/api/regenerate-note] answers 405 exactly when the method is not
    POST; 400 exactly when the method is POST and the id is missing or not
    an integer: [r.ParseForm] after [r.FormValue] has nothing left to
    report.  It answers 404 exactly when the id is an integer and either no
    note has it or [os.Stat] of the image path of the note fails with
    ENOENT.  Where the images directory has no directory in it, the notes
    name their images by plain names and the operating system does not
    refuse the call, [os.Stat] fails so exactly when no file is stored
    under [images/<image>].  With 400, 404 or 405 the
    world is untouched, and the status is always one of 200, 400, 404, 405
    and 500. *)
Theorem RegenerateNoteHandler_statuses amb r w :
  let out := RegenerateNoteHandler amb r w in
  (flat_store w → plain_rows (db w) → stat_err amb = None →
   ∀ id row, notes (db w) !! id = Some row →
     (os_Stat amb (Join "./images" (image row)) w = Some ErrNotExist ↔
      files w !! ("images/" +:+ image row) = None)) ∧
  (StatusCode out.2 = StatusMethodNotAllowed ↔ Method r ≠ MethodPost) ∧
  (StatusCode out.2 = StatusBadRequest ↔
   Method r = MethodPost ∧ Atoi (FormValue r "id") = None) ∧
  (StatusCode out.2 = StatusNotFound ↔
   Method r = MethodPost ∧
   ∃ id, Atoi (FormValue r "id") = Some id ∧
         (notes (db w) !! id = None ∨
          ∃ row, notes (db w) !! id = Some row ∧
                 os_Stat amb (Join "./images" (image row)) w
                 = Some ErrNotExist)) ∧
  (StatusCode out.2 = StatusMethodNotAllowed ∨
   StatusCode out.2 = StatusBadRequest ∨
   StatusCode out.2 = StatusNotFound → out.1 = w) ∧
  (StatusCode out.2 = StatusOK ∨ StatusCode out.2 = StatusBadRequest ∨
   StatusCode out.2 = StatusNotFound ∨
   StatusCode out.2 = StatusMethodNotAllowed ∨
   StatusCode out.2 = StatusInternalServerError).
Proof.
  intros out. subst out. split.
  { intros Hflat Hrows Hamb id row Hrow. apply Hrows in Hrow.
    rewrite Join_images_name, os_Stat_flat by done.
    by destruct (files w !! ("images/" +:+ image row)). }
  destruct (decide (Method r = MethodPost)) as [Hm|Hm].
  2:{ rewrite RegenerateNoteHandler_not_post by done. status_cases. }
  destruct (decide (FormValue r "id" = "")) as [He|He].
  { rewrite RegenerateNoteHandler_no_id by done.
    assert (Atoi (FormValue r "id") = None) by (by rewrite He). status_cases. }
  destruct (Atoi (FormValue r "id")) as [id|] eqn:Hid.
  2:{ rewrite RegenerateNoteHandler_bad_id by done. status_cases. }
  rewrite (RegenerateNoteHandler_parsed _ _ _ id) by done.
  destruct (notes (db w) !! id) as [row|] eqn:Hrow.
  2:{ rewrite GetNoteByID_absent by done. status_cases. }
  rewrite (GetNoteByID_present _ _ row) by done. simpl.
  destruct (os_Stat amb (Join "./images" (image row)) w) as [[]|] eqn:Hst;
    simpl;
    try (destruct (ConvertImageToMarkdown _ _ _ _) as [w2 [text|err]];
         [destruct (UpdateNote _ _ _ _) as [d [note|err]]|]);
    status_cases.
Qed.
End RegenerateStatuses.

Lemma RegenerateNoteHandler_statuses_witness :
  let r := post "7" None in
  Method r = MethodPost ∧
  Atoi (FormValue r "id") = Some 7 ∧ notes (db one_note) !! 7 = None ∧
  StatusCode (RegenerateNoteHandler (H := test_codec) (quiet ["# Title"]) r
                one_note).2 = StatusNotFound.
Proof.
  intros r. repeat (split; [reflexivity|]).
  apply (proj2 (RegenerateNoteHandler_statuses (H := test_codec)
                  (quiet ["# Title"]) r one_note)).
  split; [reflexivity|].
  exists 7. split; [reflexivity|]. left. reflexivity.
Defined.
